(** * Preset store of the Sverchok node editor: [ui/presets.py]

    A shallow embedding of the preset bookkeeping found in
    [src/ui/presets.py] together with the properties of its
    operations.

    Conventions of the embedding.
    - A Python [str] is a Rocq [string]; the characters are the bytes of
      its UTF-8 encoding, so that concatenation, prefix tests and the
      order used by [sorted] agree with Python's.
    - Paths are POSIX paths and are identified as strings: no
      normalisation of [.], [..], doubled separators or links.
    - The filesystem is a finite map from paths to nodes.  Its
      primitives fail on a missing path or on a node of the wrong kind;
      permissions, quotas and a regular file met in the middle of a path
      are outside the model.
    - Code runs in a state-and-exception monad over a [World]; every
      system call, network call, log line and operator report is
      appended to the world's trace in program order. *)

From Stdlib Require Import ZArith Ascii String.
From Stdlib.Strings Require Import Byte.
From stdpp Require Import gmap strings list fin_maps sorting.

Local Open Scope Z_scope.

(** ** Python string primitives *)

Module PyStr.

Definition slash : ascii := "/"%char.
Definition dot : ascii := "."%char.

(** [s[n:]] *)
Fixpoint drop (n : nat) (s : string) : string :=
  match n, s with
  | O, _ => s
  | S n', String _ r => drop n' r
  | S _, EmptyString => EmptyString
  end.

(** [s[:n]] *)
Fixpoint take (n : nat) (s : string) : string :=
  match n, s with
  | O, _ => EmptyString
  | S n', String a r => String a (take n' r)
  | S _, EmptyString => EmptyString
  end.

(** [s.rfind(c)] for a one-character [c]: the last index of [c], or -1. *)
Fixpoint rfind (c : ascii) (s : string) : Z :=
  match s with
  | EmptyString => -1
  | String a r =>
      let i := rfind c r in
      if 0 <=? i then i + 1
      else if Ascii.eqb a c then 0 else -1
  end.

(** [s.startswith(c)] and [s.endswith(c)] for a one-character [c]. *)
Definition startswith (s : string) (c : ascii) : bool :=
  match s with
  | String a _ => Ascii.eqb a c
  | EmptyString => false
  end.

Fixpoint endswith (s : string) (c : ascii) : bool :=
  match s with
  | EmptyString => false
  | String a EmptyString => Ascii.eqb a c
  | String _ r => endswith r c
  end.

(** [c in s] *)
Fixpoint contains (c : ascii) (s : string) : bool :=
  match s with
  | EmptyString => false
  | String a r => Ascii.eqb a c || contains c r
  end.

(** Every character of [s] is [c]. *)
Fixpoint all_eq (c : ascii) (s : string) : bool :=
  match s with
  | EmptyString => true
  | String a r => Ascii.eqb a c && all_eq c r
  end.

(** Truth value of a string: [bool(s)]. *)
Definition truthy (s : string) : bool :=
  match s with
  | EmptyString => false
  | String _ _ => true
  end.

(** [s[i:j]] for indices known to be in range. *)
Definition slice (i j : Z) (s : string) : string :=
  take (Z.to_nat (j - i)) (drop (Z.to_nat i) s).

End PyStr.

(** Propositional prefix and suffix of strings. *)
Definition str_prefix (pre s : string) : Prop := ∃ r, s = pre +:+ r.
Definition str_suffix (suf s : string) : Prop := ∃ l, s = l +:+ suf.

(** ** [os.path] on POSIX *)

Module os_path.
Import PyStr.

(** [posixpath.join(a, b)]:
    an absolute [b] replaces [a]; otherwise [b] is appended, with a
    separator unless [a] is empty or already ends with one. *)
Definition join (a b : string) : string :=
  if startswith b slash then b
  else if negb (truthy a) || endswith a slash then a +:+ b
  else a +:+ "/" +:+ b.

(** [posixpath.basename(p)]: [p[p.rfind('/') + 1:]]. *)
Definition basename (p : string) : string :=
  let i := rfind slash p + 1 in
  drop (Z.to_nat i) p.

(** [posixpath.splitext(p)] ([genericpath._splitext] with [sep = '/'],
    no [altsep], [extsep = '.']): split at the last dot of the last
    path component, unless that component has only dots before it. *)
Definition splitext (p : string) : string * string :=
  let sepIndex := rfind slash p in
  let dotIndex := rfind dot p in
  if sepIndex <? dotIndex then
    let filenameIndex := sepIndex + 1 in
    if all_eq dot (slice filenameIndex dotIndex p)
    then (p, EmptyString)
    else (take (Z.to_nat dotIndex) p, drop (Z.to_nat dotIndex) p)
  else (p, EmptyString).

(** [posixpath.split(p)]: head and tail around the last separator; the
    head loses its trailing separators unless it consists of them. *)
Fixpoint rstrip (c : ascii) (s : string) : string :=
  match s with
  | EmptyString => EmptyString
  | String a r =>
      match rstrip c r with
      | EmptyString => if Ascii.eqb a c then EmptyString else String a EmptyString
      | r' => String a r'
      end
  end.

Definition split (p : string) : string * string :=
  let i := Z.to_nat (rfind slash p + 1) in
  let head := take i p in
  let tail := drop i p in
  if truthy head && negb (all_eq slash head)
  then (rstrip slash head, tail)
  else (head, tail).

End os_path.

(** ** [fnmatch] and [sorted] *)

(** [fnmatch.fnmatchcase(name, pat)] for patterns built from literal
    characters, [*] and [?] (bracket classes are not needed here). *)
Fixpoint fnmatch (pat name : string) : bool :=
  match pat with
  | EmptyString => negb (PyStr.truthy name)
  | String "*"%char pat' =>
      (fix star (n : string) : bool :=
         fnmatch pat' n ||
         match n with
         | EmptyString => false
         | String _ n' => star n'
         end) name
  | String "?"%char pat' =>
      match name with
      | String _ n' => fnmatch pat' n'
      | EmptyString => false
      end
  | String c pat' =>
      match name with
      | String a n' => Ascii.eqb a c && fnmatch pat' n'
      | EmptyString => false
      end
  end.

(** [glob._ishidden]: the leading character is a dot. *)
Definition ishidden (name : string) : bool := PyStr.startswith name PyStr.dot.

(** [sorted(l)] on strings: the order is the lexicographic order on
    characters, the result the sorted permutation of [l]. *)
Definition sorted (l : list string) : list string := merge_sort String.le l.

(** ** Exceptions and outcomes *)

Inductive exn :=
  | NameError (name : string)
  | KeyError (key : string)
  | TypeError (msg : string)
  | FileNotFoundError (path : string)
  | FileExistsError (path : string)
  | IsADirectoryError (path : string)
  | UnicodeDecodeError
  | PyException (msg : string)
  | PyBaseException (msg : string).

(** [isinstance(e, Exception)]: everything but the exceptions derived
    from [BaseException] alone ([KeyboardInterrupt], [SystemExit]). *)
Definition is_Exception (e : exn) : bool :=
  match e with
  | PyBaseException _ => false
  | _ => true
  end.

Inductive outcome (A : Type) :=
  | Returned (a : A)
  | Raised (e : exn).
Arguments Returned {A} a.
Arguments Raised {A} e.

(** ** The world: filesystem, node graphs, clipboard, trace *)

Inductive entry :=
  | Dir
  | File (content : list byte).

(** A node of a graph with its selection flag, and a graph
    ([bpy.types.NodeTree]). *)
Record Node := { node_name : string; select : bool }.
Record NodeTree := { tree_name : string; nodes : list Node }.

(** Operator return values and report types of the host. *)
Inductive status := FINISHED | CANCELLED | RUNNING_MODAL.
Inductive report_type := INFO | WARNING | ERROR.
Inductive log_level := LOG_INFO | LOG_ERROR.

Inductive event :=
  | Log (lvl : log_level) (msg : string)
  | LogException (e : exn)
  | Report (t : report_type) (msg : string)
  | SysExists (path : string)
  | SysMakedirs (path : string)
  | SysListdir (path : string)
  | SysOpenRead (path : string)
  | SysOpenWrite (path : string)
  | SysWrite (path : string) (data : list byte)
  | SysRename (src dst : string)
  | SysRemove (path : string)
  | NetUpload (filename description body : string)
  | NetFetch (gist_id : string)
  | RegistryAppend (url filename : string).

(** The events that change or query the filesystem. *)
Definition is_fs_event (ev : event) : bool :=
  match ev with
  | SysExists _ | SysMakedirs _ | SysListdir _ | SysOpenRead _
  | SysOpenWrite _ | SysWrite _ _ | SysRename _ _ | SysRemove _ => true
  | _ => false
  end.

(** The events that may change the filesystem. *)
Definition is_fs_update (ev : event) : bool :=
  match ev with
  | SysMakedirs _ | SysOpenWrite _ | SysWrite _ _ | SysRename _ _
  | SysRemove _ => true
  | _ => false
  end.

(** The events that create, change or remove a regular file. *)
Definition is_file_update (ev : event) : bool :=
  match ev with
  | SysOpenWrite _ | SysWrite _ _ | SysRename _ _ | SysRemove _ => true
  | _ => false
  end.

Record World := mkWorld {
  fs : gmap string entry;
  node_groups : gmap string NodeTree;
  clipboard : string;
  trace : list event
}.

Definition with_fs (f : gmap string entry → gmap string entry) (w : World) : World :=
  {| fs := f (fs w); node_groups := node_groups w;
     clipboard := clipboard w; trace := trace w |}.

Definition with_clipboard (s : string) (w : World) : World :=
  {| fs := fs w; node_groups := node_groups w;
     clipboard := s; trace := trace w |}.

Definition with_event (ev : event) (w : World) : World :=
  {| fs := fs w; node_groups := node_groups w;
     clipboard := clipboard w; trace := trace w ++ [ev] |}.

(** ** The monad of the embedded code *)

Definition M (A : Type) : Type := World → outcome A * World.

#[global] Instance M_ret : MRet M := λ A a w, (Returned a, w).

#[global] Instance M_bind : MBind M := λ A B f m w,
  match m w with
  | (Returned a, w') => f a w'
  | (Raised e, w') => (Raised e, w')
  end.

Definition raise {A : Type} (e : exn) : M A := λ w, (Raised e, w).

Definition lift_outcome {A : Type} (o : outcome A) : M A := λ w, (o, w).

Definition emit (ev : event) : M unit := λ w, (Returned tt, with_event ev w).

(** What a statement block hands to the enclosing function: it ran to its
    end, or it executed [return s]. *)
Inductive completion :=
  | Fallthrough
  | Return (s : status).

(** [try: body  except Exception as err: handler err]: the handler runs
    on the world the body left behind, and only for instances of
    [Exception]. *)
Definition try_except {A : Type} (body : M A) (handler : exn → M A) : M A := λ w,
  match body w with
  | (Raised e, w') => if is_Exception e then handler e w' else (Raised e, w')
  | r => r
  end.

(** [try: block  finally: return s]: a [return] in the [finally] clause
    replaces whatever the block produced: its own [return], its falling
    through, and any exception still in flight. *)
Definition finally_return (block : M completion) (s : status) : M status := λ w,
  let '(_, w') := block w in (Returned s, w').

(** ** Filesystem primitives *)

(** The proper ancestors of a path: [p[:i]] for every separator at an
    index [i > 0] that does not follow another separator. *)
Fixpoint ancestors (p : string) : list string :=
  match p with
  | EmptyString => []
  | String a r =>
      (if negb (Ascii.eqb a PyStr.slash) && PyStr.startswith r PyStr.slash
       then [String a EmptyString] else [])
      ++ map (String a) (ancestors r)
  end.

Definition mkdir_missing (p : string) (m : gmap string entry) : gmap string entry :=
  match m !! p with
  | Some _ => m
  | None => <[p := Dir]> m
  end.

(** [os.path.exists(p)] *)
Definition os_path_exists (p : string) : M bool := λ w,
  (Returned (match fs w !! p with Some _ => true | None => false end),
   with_event (SysExists p) w).

(** [os.makedirs(p)]: creates [p] and its missing ancestors; an existing
    [p] is an error. *)
Definition os_makedirs (p : string) : M unit := λ w,
  let w1 := with_event (SysMakedirs p) w in
  match fs w !! p with
  | Some _ => (Raised (FileExistsError p), w1)
  | None =>
      (Returned tt,
       with_fs (λ m, <[p := Dir]> (foldr mkdir_missing m (ancestors p))) w1)
  end.

(** [os.listdir(d)] as [glob] uses it: the names of the entries directly
    inside [d], in an order of the system's choosing; nothing when [d]
    is not a directory. *)
Definition child_name (d k : string) : option string :=
  let pre := os_path.join d EmptyString in
  if String.prefix pre k then
    let name := PyStr.drop (String.length pre) k in
    if PyStr.truthy name && negb (PyStr.contains PyStr.slash name)
    then Some name else None
  else None.

Definition listdir (d : string) : M (list string) := λ w,
  (Returned (match fs w !! d with
             | Some Dir => omap (child_name d) (map_to_list (fs w)).*1
             | _ => []
             end),
   with_event (SysListdir d) w).

(** [glob.glob(pathname)] for a pathname whose directory part holds no
    pattern character: the entries of that directory whose name matches
    the last component; names with a leading dot are skipped unless the
    pattern has one. *)
Definition glob1 (pattern : string) (names : list string) : list string :=
  let names := if ishidden pattern then names
               else List.filter (λ x, negb (ishidden x)) names in
  List.filter (fnmatch pattern) names.

Definition glob (pathname : string) : M (list string) :=
  let '(dirname, basename) := os_path.split pathname in
  names ← listdir dirname;
  mret (os_path.join dirname <$> glob1 basename names).

(** [open(p, 'rb')] followed by [read()]. *)
Definition read_rb (p : string) : M (list byte) := λ w,
  let w1 := with_event (SysOpenRead p) w in
  match fs w !! p with
  | Some (File c) => (Returned c, w1)
  | Some Dir => (Raised (IsADirectoryError p), w1)
  | None => (Raised (FileNotFoundError p), w1)
  end.

(** [open(p, 'wb')]: creates the file or truncates it; the handle is the
    path. *)
Definition open_wb (p : string) : M string := λ w,
  let w1 := with_event (SysOpenWrite p) w in
  match fs w !! p with
  | Some Dir => (Raised (IsADirectoryError p), w1)
  | _ => (Returned p, with_fs (λ m, <[p := File []]> m) w1)
  end.

(** [f.write(data)] on a handle opened for writing: appends at the
    position of the handle, the end of what was written so far. *)
Definition file_write (f : string) (data : list byte) : M unit := λ w,
  let w1 := with_event (SysWrite f data) w in
  match fs w !! f with
  | Some (File c) => (Returned tt, with_fs (λ m, <[f := File (c ++ data)]> m) w1)
  | _ => (Returned tt, with_fs (λ m, <[f := File data]> m) w1)
  end.

(** [os.rename(src, dst)]: moves the entry at [src] to [dst], replacing
    a regular file there.  The entries below a directory are keyed by
    their own paths and are not re-keyed. *)
Definition os_rename (src dst : string) : M unit := λ w,
  let w1 := with_event (SysRename src dst) w in
  match fs w !! src with
  | None => (Raised (FileNotFoundError src), w1)
  | Some e =>
      match e, fs w !! dst with
      | File _, Some Dir => (Raised (IsADirectoryError dst), w1)
      | Dir, Some (File _) => (Raised (FileExistsError dst), w1)
      | _, _ => (Returned tt, with_fs (λ m, <[dst := e]> (delete src m)) w1)
      end
  end.

(** [os.remove(p)] *)
Definition os_remove (p : string) : M unit := λ w,
  let w1 := with_event (SysRemove p) w in
  match fs w !! p with
  | None => (Raised (FileNotFoundError p), w1)
  | Some Dir => (Raised (IsADirectoryError p), w1)
  | Some (File _) => (Returned tt, with_fs (delete p) w1)
  end.

(** ** The host and the collaborators outside this module

    What [bpy], [json], the codecs, the graph serializer and the snippet
    service answer is not decided by [presets.py]; it is a parameter of
    the development. *)

Class Collaborators := {
  (** parsed JSON documents and graph dictionaries *)
  json : Type;
  (** [bpy.utils.user_resource('DATAFILES', path='sverchok/presets', create=True)] *)
  user_resource : string;
  (** [create_dict_of_tree(ng, selected=...)] *)
  create_dict_of_tree : NodeTree → bool → json;
  (** [json.dumps(d, sort_keys=True, indent=2)] *)
  json_dumps : json → string;
  (** [s.encode('utf8')] and [b.decode('utf8')] *)
  encode_utf8 : string → list byte;
  decode_utf8 : list byte → option string;
  (** what the snippet service answers to a download and to an upload *)
  gist_content : string → outcome json;
  gist_upload : string → string → string → outcome string;
  (** what appending to the registry of uploaded snippets answers *)
  registry_append : string → string → outcome unit
}.

(** [sverchok.utils.logging] and [Operator.report]. *)
Definition error (msg : string) : M unit := emit (Log LOG_ERROR msg).
Definition info (msg : string) : M unit := emit (Log LOG_INFO msg).
Definition exception (err : exn) : M unit := emit (LogException err).
Definition report (t : report_type) (msg : string) : M unit := emit (Report t msg).

(** [bpy.data.node_groups[key]] *)
Definition node_groups_getitem (key : string) : M NodeTree := λ w,
  match node_groups w !! key with
  | Some ng => (Returned ng, w)
  | None => (Raised (KeyError key), w)
  end.

(** [context.window_manager.clipboard = s] *)
Definition set_clipboard (s : string) : M unit := λ w,
  (Returned tt, with_clipboard s w).

(** The names bound in the module's global namespace: the imports of
    lines 19-30 and the module's own definitions. *)
Definition module_globals : list string :=
  [ "os"; "join"; "shutil"; "glob"; "bpy"; "StringProperty"; "BoolProperty";
    "write_json"; "create_dict_of_tree"; "import_tree";
    "debug"; "info"; "error"; "exception";
    "sv_gist_tools"; "sv_IO_panel_tools";
    "get_presets_directory"; "get_preset_path"; "get_preset_paths";
    "SvPreset"; "get_presets"; "SvSaveSelected"; "SvRenamePreset";
    "SvDeletePreset"; "SvPresetToGist"; "SvPresetToFile"; "SvPresetFromFile";
    "SvPresetFromGist"; "draw_presets_ops"; "SvUserPresetsPanel";
    "SvUserPresetsPanelProps"; "classes"; "register"; "unregister" ].

(** Evaluating a global name that is not a builtin. *)
Definition global_name (name : string) : M unit :=
  if bool_decide (name ∈ module_globals) then mret tt
  else raise (NameError name).

(** ** [presets.py]: directory resolver and listing *)

Section resolver.
Context `{Collaborators}.

(** [sv_IO_panel_tools.load_json_from_gist(gist_id, operator)] *)
Definition load_json_from_gist (gist_id : string) : M json :=
  emit (NetFetch gist_id);;
  lift_outcome (gist_content gist_id).

(** [sv_gist_tools.main_upload_function(filename, description, body,
    show_browser=False)] *)
Definition main_upload_function (gist_filename gist_description gist_body : string)
  : M string :=
  emit (NetUpload gist_filename gist_description gist_body);;
  lift_outcome (gist_upload gist_filename gist_description gist_body).

(** [sv_gist_tools.write_or_append_datafiles(gist_url, gist_filename)] *)
Definition write_or_append_datafiles (gist_url gist_filename : string) : M unit :=
  emit (RegistryAppend gist_url gist_filename);;
  lift_outcome (registry_append gist_url gist_filename).

(** [b.decode('utf8')] *)
Definition decode (b : list byte) : M string :=
  match decode_utf8 b with
  | Some s => mret s
  | None => raise UnicodeDecodeError
  end.

(** Lines 32-36.  [join] of a single argument is that argument. *)
Definition get_presets_directory : M string :=
  let presets := user_resource in
  b ← os_path_exists presets;
  if negb b then
    os_makedirs presets;;
    mret presets
  else
    mret presets.

(** Lines 38-40. *)
Definition get_preset_path (name : string) : M string :=
  presets ← get_presets_directory;
  mret (os_path.join presets (name +:+ ".json")).

(** Lines 42-44. *)
Definition get_preset_paths : M (list string) :=
  presets ← get_presets_directory;
  l ← glob (os_path.join presets "*.json");
  mret (sorted l).

(** Modelled from the spec: [write_json] of
    [sverchok.utils.sv_IO_panel_tools], which is not under [src/].  It
    writes the UTF-8 encoded JSON text of the dictionary to the
    destination path, replacing whatever file is there. *)
Definition write_json (layout_dict : json) (destination_path : string) : M unit :=
  node_tree ← open_wb destination_path;
  file_write node_tree (encode_utf8 (json_dumps layout_dict)).

End resolver.

(** ** [presets.py]: the preset entity (lines 46-93) *)

Module SvPreset.

Record t := mk { _name : option string; _path : option string }.

Section methods.
Context `{Collaborators}.

(** [SvPreset(name=..., path=...)] *)
Definition init (name path : option string) : outcome t :=
  match name, path with
  | None, None =>
      Raised (PyException
        "Either name or path must be specified when initializing SvPreset")
  | _, _ => Returned {| _name := name; _path := path |}
  end.

(** The file stem both [get_name] and [set_path] compute. *)
Definition stem (path : string) : string :=
  let name := os_path.basename path in
  let '(name, _) := os_path.splitext name in
  name.

Definition get_name (self : t) : M (string * t) :=
  match _name self with
  | Some name => mret (name, self)
  | None =>
      match _path self with
      | Some path =>
          let name := stem path in
          mret (name, {| _name := Some name; _path := _path self |})
      | None => raise (TypeError "expected str, bytes or os.PathLike object, not NoneType")
      end
  end.

Definition set_name (self : t) (new_name : string) : M t :=
  let self := {| _name := Some new_name; _path := _path self |} in
  path ← get_preset_path new_name;
  mret {| _name := _name self; _path := Some path |}.

Definition get_path (self : t) : M (string * t) :=
  match _path self with
  | Some path => mret (path, self)
  | None =>
      match _name self with
      | Some name =>
          path ← get_preset_path name;
          mret (path, {| _name := _name self; _path := Some path |})
      | None =>
          get_presets_directory;;
          raise (TypeError "unsupported operand type(s) for +: 'NoneType' and 'str'")
      end
  end.

Definition set_path (self : t) (new_path : string) : M t :=
  let name := stem new_path in
  mret {| _name := Some name; _path := Some new_path |}.

(** An assignment to one of the two properties, and a run of them. *)
Inductive assignment :=
  | SetName (new_name : string)
  | SetPath (new_path : string).

Definition assign (self : t) (a : assignment) : M t :=
  match a with
  | SetName n => set_name self n
  | SetPath p => set_path self p
  end.

Fixpoint assign_all (self : t) (l : list assignment) : M t :=
  match l with
  | [] => mret self
  | a :: l' => self' ← assign self a; assign_all self' l'
  end.

(** Reading both properties: [(self.name, self.path)]. *)
Definition observe (self : t) : M (string * string) :=
  '(n, self) ← get_name self;
  '(p, self) ← get_path self;
  mret (n, p).

(** Name and path agree: the path is where the resolver puts the name,
    or the name is the stem of the path. *)
Definition consistent (name path : string) : Prop :=
  path = os_path.join user_resource (name +:+ ".json") ∨ name = stem path.

End methods.
End SvPreset.

Section listing.
Context `{Collaborators}.

(** Lines 89-93. *)
Fixpoint get_presets_loop (paths : list string) (result : list SvPreset.t)
  : M (list SvPreset.t) :=
  match paths with
  | [] => mret result
  | path :: rest =>
      p ← lift_outcome (SvPreset.init None (Some path));
      get_presets_loop rest (result ++ [p])
  end.

Definition get_presets : M (list SvPreset.t) :=
  let result := [] in
  paths ← get_preset_paths;
  get_presets_loop paths result.


End listing.

(** ** [presets.py]: the operators *)

(** Save selected nodes as a preset (lines 95-146). *)
Module SvSaveSelected.
Record t := mk { preset_name : string; id_tree : string }.

Section execute.
Context `{Collaborators}.

Definition execute (self : t) : M status :=
  if negb (PyStr.truthy (id_tree self)) then
    let msg := "Node tree is not specified" in
    error msg;;
    report ERROR msg;;
    mret CANCELLED
  else if negb (PyStr.truthy (preset_name self)) then
    let msg := "Preset name is not specified" in
    error msg;;
    report ERROR msg;;
    mret CANCELLED
  else
    ng ← node_groups_getitem (id_tree self);
    let nodes := List.filter (λ n, select n) (nodes ng) in
    if Nat.eqb (length nodes) 0 then
      let msg := "There are no selected nodes to export" in
      error msg;;
      report ERROR msg;;
      mret CANCELLED
    else
      let layout_dict := create_dict_of_tree ng true in
      destination_path ← get_preset_path (preset_name self);
      write_json layout_dict destination_path;;
      let msg := "exported to: " +:+ destination_path in
      report INFO msg;;
      info msg;;
      mret FINISHED.

End execute.
End SvSaveSelected.

(** Change the name of a preset (lines 148-198). *)
Module SvRenamePreset.
Record t := mk { old_name : string; new_name : string }.

Section execute.
Context `{Collaborators}.

Definition execute (self : t) : M status :=
  if negb (PyStr.truthy (old_name self)) then
    let msg := "Old preset name is not specified" in
    error msg;;
    report ERROR msg;;
    mret CANCELLED
  else if negb (PyStr.truthy (new_name self)) then
    let msg := "New preset name is not specified" in
    error msg;;
    report ERROR msg;;
    mret CANCELLED
  else
    old_path ← get_preset_path (old_name self);
    new_path ← get_preset_path (new_name self);
    b ← os_path_exists new_path;
    if (b : bool) then
      let msg := "Preset named `" +:+ new_name self +:+
                 "' already exists. Refusing to rewrite existing preset." in
      error msg;;
      report ERROR msg;;
      mret CANCELLED
    else
      os_rename old_path new_path;;
      info ("Renamed `" +:+ old_path +:+ "' to `" +:+ new_path +:+ "'");;
      report INFO ("Renamed `" +:+ old_name self +:+ "' to `" +:+ new_name self +:+ "'");;
      mret FINISHED.

End execute.
End SvRenamePreset.

(** Delete an existing preset (lines 200-229). *)
Module SvDeletePreset.
Record t := mk { preset_name : string }.

Section execute.
Context `{Collaborators}.

Definition execute (self : t) : M status :=
  if negb (PyStr.truthy (preset_name self)) then
    let msg := "Preset name is not specified" in
    error msg;;
    report ERROR msg;;
    mret CANCELLED
  else
    path ← get_preset_path (preset_name self);
    os_remove path;;
    info ("Removed `" +:+ path +:+ "'");;
    report INFO ("Removed `" +:+ preset_name self +:+ "'");;
    mret FINISHED.

End execute.
End SvDeletePreset.

(** Export a preset to the snippet service (lines 231-268). *)
Module SvPresetToGist.
Record t := mk { preset_name : string }.

Section execute.
Context `{Collaborators}.

(** The block under [try:] (lines 258-262). *)
Definition upload_block (gist_filename gist_description gist_body : string)
  : M completion :=
  gist_url ← main_upload_function gist_filename gist_description gist_body;
  set_clipboard gist_url;;
  info gist_url;;
  report WARNING "Copied gist URL to clipboad";;
  write_or_append_datafiles gist_url gist_filename;;
  mret Fallthrough.

(** The block under [except Exception as err:] (lines 264-266). *)
Definition upload_handler (err : exn) : M completion :=
  exception err;;
  report ERROR "Error uploading the gist, check your internet connection!";;
  mret (Return CANCELLED).

Definition execute (self : t) : M status :=
  if negb (PyStr.truthy (preset_name self)) then
    let msg := "Preset name is not specified" in
    error msg;;
    report ERROR msg;;
    mret CANCELLED
  else
    path ← get_preset_path (preset_name self);
    let gist_filename := preset_name self +:+ ".json" in
    let gist_description := preset_name self in
    raw ← read_rb path;
    gist_body ← decode raw;
    finally_return
      (try_except
         (upload_block gist_filename gist_description gist_body)
         upload_handler)
      FINISHED.

End execute.
End SvPresetToGist.

(** Import a preset from the snippet service (lines 364-413). *)
Module SvPresetFromGist.
Record t := mk { gist_id : string; preset_name : string }.

Section execute.
Context `{Collaborators}.

Definition execute (self : t) : M status :=
  if negb (PyStr.truthy (preset_name self)) then
    let msg := "Preset name is not specified" in
    error msg;;
    report ERROR msg;;
    mret CANCELLED
  else if negb (PyStr.truthy (gist_id self)) then
    let msg := "Gist ID is not specified" in
    error msg;;
    report ERROR msg;;
    mret CANCELLED
  else
    gist_data ← load_json_from_gist (gist_id self);
    target_path ← get_preset_path (preset_name self);
    b ← os_path_exists target_path;
    if (b : bool) then
      let msg := "Preset named `" +:+ preset_name self +:+
                 "' already exists. Refusing to rewrite existing preset." in
      error msg;;
      report ERROR msg;;
      mret CANCELLED
    else
      jsonfile ← open_wb target_path;
      global_name "json";;
      let gist_data := encode_utf8 (json_dumps gist_data) in
      file_write jsonfile gist_data;;
      let msg := "Imported `" +:+ gist_id self +:+ "' as `" +:+
                 preset_name self +:+ "'" in
      info msg;;
      report INFO msg;;
      mret FINISHED.

End execute.
End SvPresetFromGist.

(** ** [presets.py]: export to and import from an outer file *)

(** [shutil.copy(src, dst)]: a destination that is a directory stands
    for the file of the source's base name inside it; copying a file
    onto itself is [shutil.SameFileError] (an [Exception], carried by
    [PyException]); otherwise the source is opened and read, the
    destination created or truncated and written.  Of the system calls
    of [shutil] the trace records the opening and writing of files; its
    stat probes and the copy of the permission bits are left out. *)
Definition shutil_copy (src dst : string) : M string := λ w,
  let dst := match fs w !! dst with
             | Some Dir => os_path.join dst (os_path.basename src)
             | _ => dst
             end in
  let samefile := match fs w !! src with
                  | Some _ => bool_decide (src = dst)
                  | None => false
                  end in
  if samefile then
    (Raised (PyException ("'" +:+ src +:+ "' and '" +:+ dst +:+ "' are the same file")), w)
  else
    (data ← read_rb src;
     fdst ← open_wb dst;
     file_write fdst data;;
     mret dst) w.

(** Export preset to outer file (lines 270-315). *)
Module SvPresetToFile.
Record t := mk { preset_name : string; filepath : string }.

Section execute.
Context `{Collaborators}.

Definition execute (self : t) : M status :=
  if negb (PyStr.truthy (preset_name self)) then
    let msg := "Preset name is not specified" in
    error msg;;
    report ERROR msg;;
    mret CANCELLED
  else if negb (PyStr.truthy (filepath self)) then
    let msg := "Target file path is not specified" in
    error msg;;
    report ERROR msg;;
    mret CANCELLED
  else
    existing_path ← get_preset_path (preset_name self);
    shutil_copy existing_path (filepath self);;
    let msg := "Saved `" +:+ preset_name self +:+ "' as `" +:+ filepath self +:+ "'" in
    info msg;;
    report INFO msg;;
    mret FINISHED.

End execute.
End SvPresetToFile.

(** Import preset from JSON file (lines 317-362). *)
Module SvPresetFromFile.
Record t := mk { preset_name : string; filepath : string }.

Section execute.
Context `{Collaborators}.

Definition execute (self : t) : M status :=
  if negb (PyStr.truthy (preset_name self)) then
    let msg := "Preset name is not specified" in
    error msg;;
    report ERROR msg;;
    mret CANCELLED
  else if negb (PyStr.truthy (filepath self)) then
    let msg := "Source file path is not specified" in
    error msg;;
    report ERROR msg;;
    mret CANCELLED
  else
    target_path ← get_preset_path (preset_name self);
    shutil_copy (filepath self) target_path;;
    let msg := "Imported `" +:+ filepath self +:+ "' as `" +:+ preset_name self +:+ "'" in
    info msg;;
    report INFO msg;;
    mret FINISHED.

End execute.
End SvPresetFromFile.

(** ** [presets.py]: what the dialogs are opened with *)

(** [SvRenamePreset.invoke] (lines 195-198): the dialog starts from the
    old name; the host's [invoke_props_dialog] answers RUNNING_MODAL. *)
Definition SvRenamePreset_invoke (self : SvRenamePreset.t)
  : M (SvRenamePreset.t * status) :=
  let self := {| SvRenamePreset.old_name := SvRenamePreset.old_name self;
                 SvRenamePreset.new_name := SvRenamePreset.old_name self |} in
  mret (self, RUNNING_MODAL).

(** [SvPresetFromGist.invoke] (lines 410-413): the dialog starts from the
    text on the clipboard. *)
Definition SvPresetFromGist_invoke (self : SvPresetFromGist.t)
  : M (SvPresetFromGist.t * status) := λ w,
  let self := {| SvPresetFromGist.gist_id := clipboard w;
                 SvPresetFromGist.preset_name := SvPresetFromGist.preset_name self |} in
  (Returned (self, RUNNING_MODAL), w).

(** ** [presets.py]: the panel and its buttons *)

(** What a layout of the host has been asked to show, in the order of
    the calls: [layout.operator] with the properties assigned to the
    operator it returns, [layout.prop], [layout.separator],
    [layout.label], and the sub-layouts [layout.row] and
    [layout.column] with what was put into them. *)
#[warnings="-register-all"]
Inductive widget :=
  | W_operator (idname : string) (text icon : option string)
      (props : list (string * string))
  | W_prop (property : string) (toggle : bool)
  | W_separator
  | W_label (text : string)
  | W_row (align : bool) (items : list widget)
  | W_column (align : bool) (items : list widget).

Section panel.
Context `{Collaborators}.

(** [SvPreset.draw_operator] (lines 84-87): returns what it adds to the
    layout, and the preset with what reading its properties cached. *)
Definition draw_operator (self : SvPreset.t) (id_tree : string)
  : M (list widget * SvPreset.t) :=
  '(name, self) ← SvPreset.get_name self;
  '(path, self) ← SvPreset.get_path self;
  mret ([W_operator "node.tree_importer_silent" (Some name) None
           [("id_tree", id_tree); ("filepath", path)]], self).

Fixpoint draw_presets_loop (presets : list SvPreset.t) (id_tree : string)
  : M (list widget) :=
  match presets with
  | [] => mret []
  | preset :: rest =>
      '(ws, _) ← draw_operator preset id_tree;
      ws' ← draw_presets_loop rest id_tree;
      mret (ws ++ ws')
  end.

(** [draw_presets_ops] (lines 415-426); [context], when given, is the
    node tree of its [space_data]. *)
Definition draw_presets_ops (id_tree : option string)
    (presets : option (list SvPreset.t)) (context : option NodeTree)
  : M (list widget) :=
  presets ← match presets with
            | None => get_presets
            | Some presets => mret presets
            end;
  id_tree ← match id_tree with
            | None =>
                match context with
                | None =>
                    raise (PyException
                      "Either id_tree or context must be provided for draw_presets_ops()")
                | Some ntree => mret (tree_name ntree)
                end
            | Some id_tree => mret id_tree
            end;
  draw_presets_loop presets id_tree.

(** The row of one preset in management mode (lines 463-479). *)
Definition manage_row (preset : SvPreset.t) : M widget :=
  '(name, _) ← SvPreset.get_name preset;
  mret (W_row true
    [ W_label name;
      W_operator "node.sv_preset_to_gist" (Some "") (Some "URL")
        [("preset_name", name)];
      W_operator "node.sv_preset_to_file" (Some "") (Some "EXPORT")
        [("preset_name", name)];
      W_operator "node.sv_preset_rename" (Some "") (Some "GREASEPENCIL")
        [("old_name", name)];
      W_operator "node.sv_preset_delete" (Some "") (Some "CANCEL")
        [("preset_name", name)] ]).

Fixpoint manage_rows (presets : list SvPreset.t) : M (list widget) :=
  match presets with
  | [] => mret []
  | preset :: rest =>
      row ← manage_row preset;
      rows ← manage_rows rest;
      mret (row :: rows)
  end.

(** [SvUserPresetsPanel.draw] (lines 443-483) for the node tree of the
    editor and the [manage_mode] flag of its panel properties. *)
Definition panel_draw (ntree : NodeTree) (manage_mode : bool) : M (list widget) :=
  let save :=
    if existsb (λ node, select node) (nodes ntree) then
      [ W_operator "node.sv_save_selected" (Some "Save Preset") (Some "SAVE_PREFS")
          [("id_tree", tree_name ntree)];
        W_separator ]
    else [] in
  presets ← get_presets;
  let toggle :=
    if negb (Nat.eqb (length presets) 0) then
      [ W_prop "manage_mode" true; W_separator ]
    else [] in
  if manage_mode then
    let col :=
      W_column true
        [ W_operator "node.sv_preset_from_gist" None (Some "URL") [];
          W_operator "node.sv_preset_from_file" None (Some "IMPORT") [] ] in
    rows ← manage_rows presets;
    mret (save ++ toggle ++ [col; W_label "Manage presets:"] ++ rows)
  else
    ops ← draw_presets_ops (Some (tree_name ntree)) (Some presets) None;
    mret (save ++ toggle ++ [W_label "Use preset:"] ++ ops).

End panel.

(** ** Concrete hosts and worlds for the examples *)

Definition bytes_of (s : string) : list byte := String.list_byte_of_string s.

(** A host whose snippet service answers. *)
Definition demo_host : Collaborators := {|
  json := string;
  user_resource := "/home/u/presets";
  create_dict_of_tree ng selected :=
    "{nodes: " +:+
    String.concat ", " (map node_name
      (List.filter (λ n, negb selected || select n) (nodes ng))) +:+ "}";
  json_dumps d := d;
  encode_utf8 := String.list_byte_of_string;
  decode_utf8 b := Some (String.string_of_list_byte b);
  gist_content gid := Returned "{}";
  gist_upload filename description body := Returned ("https://gist.example/" +:+ filename);
  registry_append url filename := Returned tt
|}.

(** A host without network: uploads and downloads raise. *)
Definition offline_host : Collaborators := {|
  json := string;
  user_resource := "/home/u/presets";
  create_dict_of_tree ng selected := "{}";
  json_dumps d := d;
  encode_utf8 := String.list_byte_of_string;
  decode_utf8 b := Some (String.string_of_list_byte b);
  gist_content gid := Raised (PyException "URLError");
  gist_upload filename description body := Raised (PyException "URLError");
  registry_append url filename := Returned tt
|}.

(** A host whose upload is interrupted from the keyboard. *)
Definition interrupted_host : Collaborators := {|
  json := string;
  user_resource := "/home/u/presets";
  create_dict_of_tree ng selected := "{}";
  json_dumps d := d;
  encode_utf8 := String.list_byte_of_string;
  decode_utf8 b := Some (String.string_of_list_byte b);
  gist_content gid := Returned "{}";
  gist_upload filename description body := Raised (PyBaseException "KeyboardInterrupt");
  registry_append url filename := Returned tt
|}.

(** A host whose snippet service answers but whose registry of uploaded
    snippets cannot be written. *)
Definition registry_down_host : Collaborators := {|
  json := string;
  user_resource := "/home/u/presets";
  create_dict_of_tree ng selected := "{}";
  json_dumps d := d;
  encode_utf8 := String.list_byte_of_string;
  decode_utf8 b := Some (String.string_of_list_byte b);
  gist_content gid := Returned "{}";
  gist_upload filename description body := Returned ("https://gist.example/" +:+ filename);
  registry_append url filename := Raised (PyException "PermissionError")
|}.

Definition demo_tree : NodeTree :=
  {| tree_name := "NodeTree";
     nodes := [ {| node_name := "A"; select := true |};
                {| node_name := "B"; select := false |};
                {| node_name := "C"; select := true |} ] |}.

Definition idle_tree : NodeTree :=
  {| tree_name := "Idle";
     nodes := [ {| node_name := "A"; select := false |} ] |}.

(** Nothing on disk, not even the presets directory. *)
Definition empty_world : World :=
  {| fs := ∅;
     node_groups := {[ "NodeTree" := demo_tree; "Idle" := idle_tree ]};
     clipboard := "";
     trace := [] |}.

(** The presets directory with the presets [a], [a b] and [foo]. *)
Definition demo_fs : gmap string entry :=
  {[ "/home" := Dir; "/home/u" := Dir; "/home/u/presets" := Dir;
     "/home/u/presets/a.json" := File (bytes_of "{a}");
     "/home/u/presets/a b.json" := File (bytes_of "{a b}");
     "/home/u/presets/foo.json" := File (bytes_of "{foo}");
     "/home/u/presets/.hidden.json" := File (bytes_of "{}");
     "/home/u/presets/notes.txt" := File (bytes_of "notes");
     "/home/u/other.json" := File (bytes_of "{}") ]}.

Definition demo_world : World :=
  {| fs := demo_fs;
     node_groups := {[ "NodeTree" := demo_tree; "Idle" := idle_tree ]};
     clipboard := "";
     trace := [] |}.

(** ** Predicates of the statements *)

(** The regular files of two filesystems and their contents coincide. *)
Definition same_files (m m' : gmap string entry) : Prop :=
  ∀ q c, m' !! q = Some (File c) ↔ m !! q = Some (File c).

(** Every entry of [m] is still there in [m']. *)
Definition entries_kept (m m' : gmap string entry) : Prop :=
  ∀ q e, m !! q = Some e → m' !! q = Some e.

(** A refused call: CANCELLED, the message logged and reported, the
    filesystem as it was. *)
Definition rejected (msg : string) (w : World) (r : outcome status * World) : Prop :=
  r.1 = Returned CANCELLED ∧
  fs r.2 = fs w ∧
  trace r.2 = trace w ++ [Log LOG_ERROR msg; Report ERROR msg].

(** The message of a refused overwrite (rename and snippet import). *)
Definition refusal (name : string) : string :=
  "Preset named `" +:+ name +:+
  "' already exists. Refusing to rewrite existing preset.".

Section predicates.
Context `{Collaborators}.

(** The world after the resolver made sure of the presets directory, and
    the events this adds. *)
Definition ensure_dir (w : World) : World := (get_presets_directory w).2.

Definition dir_events (w : World) : list event :=
  match fs w !! user_resource with
  | Some _ => [SysExists user_resource]
  | None => [SysExists user_resource; SysMakedirs user_resource]
  end.

(** An entry of the presets directory whose name [glob] matches against
    [*.json]: directly inside, ending in [.json], no leading dot. *)
Definition json_entry (m : gmap string entry) (p : string) : Prop :=
  m !! user_resource = Some Dir ∧
  ∃ name, p = os_path.join user_resource name ∧
          PyStr.contains PyStr.slash name = false ∧
          str_suffix ".json" name ∧
          ishidden name = false ∧
          is_Some (m !! p).

(** The names [glob] finds in the presets directory of a filesystem. *)
Definition listed_names (m : gmap string entry) : list string :=
  match m !! user_resource with
  | Some Dir => omap (child_name user_resource) (map_to_list m).*1
  | _ => []
  end.

(** The fields of a preset agree: at least one is set, and two set
    fields are consistent. *)
Definition fields_agree (self : SvPreset.t) : Prop :=
  match SvPreset._name self, SvPreset._path self with
  | Some n, Some p => SvPreset.consistent n p
  | None, None => False
  | _, _ => True
  end.

(** The world in which the operation, having resolved both paths, probes
    the new one. *)
Definition rename_probed (self : SvRenamePreset.t) (w : World) : World :=
  with_event
    (SysExists (os_path.join user_resource (SvRenamePreset.new_name self +:+ ".json")))
    (ensure_dir (ensure_dir w)).

(** The world in which the upload is attempted: the presets directory
    made sure of, the preset file opened and read. *)
Definition upload_ready (self : SvPresetToGist.t) (w : World) : World :=
  with_event
    (SysOpenRead (os_path.join user_resource (SvPresetToGist.preset_name self +:+ ".json")))
    (ensure_dir w).

End predicates.

(** What the panel shows for a listed path: in use mode the button that
    applies the preset, in management mode the row of its actions. *)
Definition preset_button (id_tree path : string) : widget :=
  W_operator "node.tree_importer_silent" (Some (SvPreset.stem path)) None
    [("id_tree", id_tree); ("filepath", path)].

Definition preset_row (path : string) : widget :=
  W_row true
    [ W_label (SvPreset.stem path);
      W_operator "node.sv_preset_to_gist" (Some "") (Some "URL")
        [("preset_name", SvPreset.stem path)];
      W_operator "node.sv_preset_to_file" (Some "") (Some "EXPORT")
        [("preset_name", SvPreset.stem path)];
      W_operator "node.sv_preset_rename" (Some "") (Some "GREASEPENCIL")
        [("old_name", SvPreset.stem path)];
      W_operator "node.sv_preset_delete" (Some "") (Some "CANCEL")
        [("preset_name", SvPreset.stem path)] ].

(** The button that saves the selection of a tree. *)
Definition save_button (ntree : NodeTree) : widget :=
  W_operator "node.sv_save_selected" (Some "Save Preset") (Some "SAVE_PREFS")
    [("id_tree", tree_name ntree)].

(** The panel in closed form over the paths of the listing. *)
Definition panel_widgets (ntree : NodeTree) (manage_mode : bool) (l : list string)
  : list widget :=
  (if existsb (λ node, select node) (nodes ntree)
   then [save_button ntree; W_separator] else []) ++
  (match l with
   | [] => []
   | _ :: _ => [W_prop "manage_mode" true; W_separator]
   end) ++
  (if manage_mode then
     [ W_column true
         [ W_operator "node.sv_preset_from_gist" None (Some "URL") [];
           W_operator "node.sv_preset_from_file" None (Some "IMPORT") [] ];
       W_label "Manage presets:" ] ++ (preset_row <$> l)
   else
     [W_label "Use preset:"] ++ (preset_button (tree_name ntree) <$> l)).

(** * Properties *)

(** ** Strings and paths *)

(** The path functions on the inputs [presets.py] gives them. *)
Example ex_join_relative : os_path.join "/home/u/presets" "a.json" = "/home/u/presets/a.json".
Proof. reflexivity. Qed.
Example ex_join_trailing_sep : os_path.join "/home/u/presets/" "a.json" = "/home/u/presets/a.json".
Proof. reflexivity. Qed.
Example ex_join_absolute : os_path.join "/home/u/presets" "/tmp/a.json" = "/tmp/a.json".
Proof. reflexivity. Qed.
Example ex_join_empty_dir : os_path.join "" "a.json" = "a.json".
Proof. reflexivity. Qed.
Example ex_basename_nested : os_path.basename "/home/u/presets/a b.json" = "a b.json".
Proof. reflexivity. Qed.
Example ex_basename_plain : os_path.basename "a.json" = "a.json".
Proof. reflexivity. Qed.
Example ex_splitext_json : os_path.splitext "a.tar.json" = ("a.tar", ".json").
Proof. reflexivity. Qed.
Example ex_splitext_hidden : os_path.splitext ".json" = (".json", "").
Proof. reflexivity. Qed.
Example ex_splitext_dots : os_path.splitext "...json" = ("...json", "").
Proof. reflexivity. Qed.
Example ex_splitext_dir_dot : os_path.splitext "/a.b/c" = ("/a.b/c", "").
Proof. reflexivity. Qed.
Example ex_split_pattern : os_path.split "/home/u/presets/*.json" = ("/home/u/presets", "*.json").
Proof. reflexivity. Qed.
Example ex_split_root : os_path.split "/x" = ("/", "x").
Proof. reflexivity. Qed.

Lemma append_nil_r (s : string) : s +:+ "" = s.
Proof. induction s as [|a s IH]; [done|]. unfold String.app in *. simpl. by rewrite IH. Qed.

Lemma append_cons (a : ascii) (s t : string) : String a s +:+ t = String a (s +:+ t).
Proof. done. Qed.

Lemma append_assoc (s t u : string) : (s +:+ t) +:+ u = s +:+ t +:+ u.
Proof. induction s as [|a s IH]; [done|]. rewrite !append_cons. by rewrite IH. Qed.

Lemma startswith_append (n t : string) (c : ascii) :
  PyStr.startswith t c = false →
  PyStr.startswith (n +:+ t) c = PyStr.startswith n c.
Proof. destruct n; [|done]. intros Ht. exact Ht. Qed.

Lemma join_suffix (a b : string) : str_suffix b (os_path.join a b).
Proof.
  unfold os_path.join.
  destruct (PyStr.startswith b PyStr.slash); [by exists ""|].
  destruct (negb (PyStr.truthy a) || PyStr.endswith a PyStr.slash).
  - by exists a.
  - exists (a +:+ "/"). by rewrite append_assoc.
Qed.

Lemma join_prefix (a b : string) :
  PyStr.startswith b PyStr.slash = false → str_prefix a (os_path.join a b).
Proof.
  unfold os_path.join. intros ->.
  destruct (negb (PyStr.truthy a) || PyStr.endswith a PyStr.slash); by eexists.
Qed.

Lemma join_absolute_eq (a b : string) :
  PyStr.startswith b PyStr.slash = true → os_path.join a b = b.
Proof. unfold os_path.join. by intros ->. Qed.

(** ** The monad *)

Lemma run_bind {A B : Type} (m : M A) (f : A → M B) (w : World) :
  (m ≫= f) w =
  match m w with
  | (Returned a, w') => f a w'
  | (Raised e, w') => (Raised e, w')
  end.
Proof. done. Qed.

Lemma run_bind_returned {A B : Type} (m : M A) (f : A → M B) (w w' : World) (a : A) :
  m w = (Returned a, w') → (m ≫= f) w = f a w'.
Proof. intros Hm. by rewrite run_bind, Hm. Qed.

Lemma run_bind_raised {A B : Type} (m : M A) (f : A → M B) (w w' : World) (e : exn) :
  m w = (Raised e, w') → (m ≫= f) w = (Raised e, w').
Proof. intros Hm. by rewrite run_bind, Hm. Qed.

Lemma run_emit_bind {B : Type} (ev : event) (k : M B) (w : World) :
  (emit ev ≫= λ _, k) w = k (with_event ev w).
Proof. done. Qed.

Lemma run_ret {A : Type} (a : A) (w : World) : (mret a : M A) w = (Returned a, w).
Proof. done. Qed.

(** ** The directory resolver *)

Section resolver_facts.
Context `{Collaborators}.

Lemma mkdir_missing_kept (p : string) (m : gmap string entry) :
  entries_kept m (mkdir_missing p m).
Proof.
  intros q e Hq. unfold mkdir_missing.
  destruct (m !! p) eqn:Hp; [done|].
  rewrite lookup_insert_ne; [done|congruence].
Qed.

Lemma mkdir_missing_files (p : string) (m : gmap string entry) :
  same_files m (mkdir_missing p m).
Proof.
  intros q c. unfold mkdir_missing.
  destruct (m !! p) eqn:Hp; [done|].
  destruct (decide (p = q)) as [<-|Hne].
  - rewrite lookup_insert_eq. split; [done|congruence].
  - by rewrite lookup_insert_ne.
Qed.

Lemma foldr_mkdir_missing_kept (l : list string) (m : gmap string entry) :
  entries_kept m (foldr mkdir_missing m l).
Proof.
  induction l as [|p l IH]; intros q e Hq; simpl; [done|].
  by apply mkdir_missing_kept, IH.
Qed.

Lemma foldr_mkdir_missing_files (l : list string) (m : gmap string entry) :
  same_files m (foldr mkdir_missing m l).
Proof.
  induction l as [|p l IH]; intros q c; simpl; [done|].
  rewrite <-(IH q c). apply mkdir_missing_files.
Qed.

Lemma get_presets_directory_run (w : World) :
  get_presets_directory w = (Returned user_resource, ensure_dir w).
Proof.
  unfold ensure_dir, get_presets_directory.
  rewrite run_bind. unfold os_path_exists.
  destruct (fs w !! user_resource) eqn:Hd; simpl; [done|].
  rewrite run_bind. unfold os_makedirs. simpl. by rewrite Hd.
Qed.

Lemma ensure_dir_trace (w : World) :
  trace (ensure_dir w) = trace w ++ dir_events w.
Proof.
  unfold ensure_dir, dir_events, get_presets_directory.
  rewrite run_bind. unfold os_path_exists.
  destruct (fs w !! user_resource) eqn:Hd; simpl; [done|].
  rewrite run_bind. unfold os_makedirs. simpl. rewrite Hd. simpl.
  by rewrite <-app_assoc.
Qed.

Lemma ensure_dir_fs (w : World) :
  fs (ensure_dir w) =
  match fs w !! user_resource with
  | Some _ => fs w
  | None => <[user_resource := Dir]> (foldr mkdir_missing (fs w) (ancestors user_resource))
  end.
Proof.
  unfold ensure_dir, get_presets_directory.
  rewrite run_bind. unfold os_path_exists.
  destruct (fs w !! user_resource) eqn:Hd; simpl; [done|].
  rewrite run_bind. unfold os_makedirs. simpl. by rewrite Hd.
Qed.

Lemma ensure_dir_rest (w : World) :
  node_groups (ensure_dir w) = node_groups w ∧ clipboard (ensure_dir w) = clipboard w.
Proof.
  unfold ensure_dir, get_presets_directory.
  rewrite run_bind. unfold os_path_exists.
  destruct (fs w !! user_resource) eqn:Hd; simpl; [done|].
  rewrite run_bind. unfold os_makedirs. simpl. by rewrite Hd.
Qed.

Lemma ensure_dir_kept (w : World) : entries_kept (fs w) (fs (ensure_dir w)).
Proof.
  rewrite ensure_dir_fs. intros q e Hq.
  destruct (fs w !! user_resource) eqn:Hd; [done|].
  rewrite lookup_insert_ne by congruence.
  by apply foldr_mkdir_missing_kept.
Qed.

Lemma ensure_dir_files (w : World) : same_files (fs w) (fs (ensure_dir w)).
Proof.
  rewrite ensure_dir_fs. intros q c.
  destruct (fs w !! user_resource) eqn:Hd; [done|].
  destruct (decide (user_resource = q)) as [<-|Hne].
  - rewrite lookup_insert_eq. split; [done|congruence].
  - rewrite lookup_insert_ne by done. apply foldr_mkdir_missing_files.
Qed.

Lemma ensure_dir_exists (w : World) : is_Some (fs (ensure_dir w) !! user_resource).
Proof.
  rewrite ensure_dir_fs.
  destruct (fs w !! user_resource) eqn:Hd; [by rewrite Hd|].
  by rewrite lookup_insert_eq.
Qed.

Lemma ensure_dir_lookup_Some (w : World) (q : string) (e : entry) :
  fs w !! q = Some e → fs (ensure_dir w) !! q = Some e.
Proof. apply ensure_dir_kept. Qed.

Lemma ensure_dir_lookup_None (w : World) (q : string) :
  fs (ensure_dir w) !! q = None → fs w !! q = None.
Proof.
  intros Hn. destruct (fs w !! q) eqn:Hq; [|done].
  apply ensure_dir_kept in Hq. congruence.
Qed.

Lemma ensure_dir_idem (w : World) :
  fs (ensure_dir (ensure_dir w)) = fs (ensure_dir w).
Proof.
  rewrite (ensure_dir_fs (ensure_dir w)).
  by destruct (ensure_dir_exists w) as [e ->].
Qed.

Lemma get_preset_path_run (name : string) (w : World) :
  get_preset_path name w =
  (Returned (os_path.join user_resource (name +:+ ".json")), ensure_dir w).
Proof.
  unfold get_preset_path.
  by rewrite (run_bind_returned _ _ _ _ _ (get_presets_directory_run w)).
Qed.

End resolver_facts.

(** C5 (as amended).  For every name [n], [get_preset_path n] returns
    exactly the presets directory joined with [n + ".json"]; the result
    ends with [n + ".json"], and begins with the presets directory
    whenever [n] does not begin with a separator.  The call never
    creates, changes or removes a regular file and keeps every entry,
    but it does probe the presets directory and creates it, with its
    missing ancestors, when it is absent. *)
Theorem get_preset_path_correct `{Collaborators} (n : string) (w : World) :
  ∃ w',
    get_preset_path n w =
      (Returned (os_path.join user_resource (n +:+ ".json")), w') ∧
    str_suffix (n +:+ ".json") (os_path.join user_resource (n +:+ ".json")) ∧
    (PyStr.startswith n PyStr.slash = false →
     str_prefix user_resource (os_path.join user_resource (n +:+ ".json"))) ∧
    same_files (fs w) (fs w') ∧
    entries_kept (fs w) (fs w') ∧
    fs w' = match fs w !! user_resource with
            | Some _ => fs w
            | None => <[user_resource := Dir]>
                        (foldr mkdir_missing (fs w) (ancestors user_resource))
            end ∧
    trace w' = trace w ++ dir_events w ∧
    Forall (λ ev, is_file_update ev = false) (dir_events w).
Proof.
  exists (ensure_dir w). split; [apply get_preset_path_run|].
  split; [apply join_suffix|].
  split.
  { intros Hn. apply join_prefix. by rewrite startswith_append. }
  split; [apply ensure_dir_files|].
  split; [apply ensure_dir_kept|].
  split; [apply ensure_dir_fs|].
  split; [apply ensure_dir_trace|].
  unfold dir_events. destruct (fs w !! user_resource); repeat constructor.
Qed.

Lemma get_preset_path_correct_witness :
  str_prefix "/home/u/presets" (os_path.join "/home/u/presets" "foo.json").
Proof.
  destruct (get_preset_path_correct (H := demo_host) "foo" demo_world)
    as (w' & _ & _ & Hunder & _).
  apply Hunder. reflexivity.
Defined.

(** C5 as stated fails twice.  With the presets directory missing, the
    call probes the filesystem and creates the directory; and a name
    that begins with a separator resolves outside the presets
    directory. *)
Lemma get_preset_path_touches_filesystem :
  (∃ w',
     get_preset_path (H := demo_host) "foo" empty_world =
       (Returned "/home/u/presets/foo.json", w') ∧
     fs empty_world !! "/home/u/presets" = None ∧
     fs w' !! "/home/u/presets" = Some Dir ∧
     trace w' = [SysExists "/home/u/presets"; SysMakedirs "/home/u/presets"]) ∧
  (∃ w',
     get_preset_path (H := demo_host) "/tmp/foo" demo_world =
       (Returned "/tmp/foo.json", w') ∧
     ¬ str_prefix "/home/u/presets" "/tmp/foo.json").
Proof.
  split.
  - eexists. split; [vm_compute; reflexivity|]. by vm_compute.
  - eexists. split; [vm_compute; reflexivity|].
    intros [r Hr]. discriminate Hr.
Qed.

(** ** Import from the snippet service *)

Lemma truthy_nonempty (s : string) : s ≠ "" → PyStr.truthy s = true.
Proof. by destruct s. Qed.

Lemma global_name_json (w : World) :
  global_name "json" w = (Raised (NameError "json"), w).
Proof. reflexivity. Qed.

Section from_gist_facts.
Context `{Collaborators}.

(** The operation in closed form, once both parameters are given. *)
Lemma from_gist_run (self : SvPresetFromGist.t) (w : World) :
  SvPresetFromGist.preset_name self ≠ "" →
  SvPresetFromGist.gist_id self ≠ "" →
  SvPresetFromGist.execute self w =
  let w0 := with_event (NetFetch (SvPresetFromGist.gist_id self)) w in
  match gist_content (SvPresetFromGist.gist_id self) with
  | Raised e => (Raised e, w0)
  | Returned _ =>
      let target :=
        os_path.join user_resource (SvPresetFromGist.preset_name self +:+ ".json") in
      let w1 := with_event (SysExists target) (ensure_dir w0) in
      match fs (ensure_dir w0) !! target with
      | Some _ =>
          (Returned CANCELLED,
           with_event (Report ERROR (refusal (SvPresetFromGist.preset_name self)))
             (with_event (Log LOG_ERROR (refusal (SvPresetFromGist.preset_name self))) w1))
      | None =>
          (Raised (NameError "json"),
           with_fs (λ m, <[target := File []]> m) (with_event (SysOpenWrite target) w1))
      end
  end.
Proof.
  intros Hn Hg. unfold SvPresetFromGist.execute.
  rewrite (truthy_nonempty _ Hn), (truthy_nonempty _ Hg). simpl.
  unfold load_json_from_gist. rewrite run_bind, run_emit_bind.
  unfold lift_outcome.
  destruct (gist_content (SvPresetFromGist.gist_id self)) as [v|e]; [|done].
  rewrite run_bind, get_preset_path_run, run_bind. unfold os_path_exists.
  destruct (fs (ensure_dir _) !! _) eqn:Ht; [done|].
  rewrite run_bind. unfold open_wb. simpl. rewrite Ht.
  by rewrite run_bind, global_name_json.
Qed.

Lemma ensure_dir_after_event_fs (ev : event) (w : World) :
  fs (ensure_dir (with_event ev w)) = fs (ensure_dir w).
Proof. by rewrite !ensure_dir_fs. Qed.

Lemma ensure_dir_after_event_trace (ev : event) (w : World) :
  trace (ensure_dir (with_event ev w)) = trace w ++ [ev] ++ dir_events w.
Proof. rewrite ensure_dir_trace. simpl. by rewrite <-app_assoc. Qed.

Lemma dir_events_quiet (w : World) :
  Forall (λ ev, is_file_update ev = false) (dir_events w).
Proof. unfold dir_events. destruct (fs w !! user_resource); repeat constructor. Qed.


End from_gist_facts.



(** C3 (what the code does).  Import from a snippet under a free name:
    for every invocation with both parameters given, a fetch that
    returned and no entry at the resolved preset path once the presets
    directory is in place, the file is created empty and the evaluation
    of the unbound name [json] raises [NameError].  Nothing is written
    to the file, nothing is reported and FINISHED is not returned. *)
Theorem from_gist_fresh_name_raises `{Collaborators}
    (self : SvPresetFromGist.t) (w : World) (v : json) :
  SvPresetFromGist.preset_name self ≠ "" →
  SvPresetFromGist.gist_id self ≠ "" →
  gist_content (SvPresetFromGist.gist_id self) = Returned v →
  fs (ensure_dir w)
    !! os_path.join user_resource (SvPresetFromGist.preset_name self +:+ ".json")
    = None →
  ∃ w',
    SvPresetFromGist.execute self w = (Raised (NameError "json"), w') ∧
    fs w' !! os_path.join user_resource (SvPresetFromGist.preset_name self +:+ ".json")
      = Some (File []) ∧
    trace w' =
      trace w ++ [NetFetch (SvPresetFromGist.gist_id self)] ++ dir_events w ++
      [SysExists
         (os_path.join user_resource (SvPresetFromGist.preset_name self +:+ ".json"));
       SysOpenWrite
         (os_path.join user_resource (SvPresetFromGist.preset_name self +:+ ".json"))].
Proof.
  intros Hn Hg Hf Hfree.
  set (target := os_path.join user_resource _) in *.
  set (gid := SvPresetFromGist.gist_id self) in *.
  rewrite <-(ensure_dir_after_event_fs (NetFetch gid)) in Hfree.
  eexists. split.
  { rewrite from_gist_run by done. fold gid target. rewrite Hf. simpl.
    rewrite Hfree. reflexivity. }
  simpl. split; [by rewrite lookup_insert_eq|].
  rewrite ensure_dir_trace. simpl. by rewrite <-!app_assoc.
Qed.

Lemma from_gist_fresh_name_raises_witness :
  ∃ w',
    SvPresetFromGist.execute (H := demo_host)
      (SvPresetFromGist.mk "abc" "new") demo_world = (Raised (NameError "json"), w') ∧
    fs w' !! "/home/u/presets/new.json" = Some (File []).
Proof.
  destruct (from_gist_fresh_name_raises (H := demo_host)
              (SvPresetFromGist.mk "abc" "new") demo_world "{}")
    as (w' & Hrun & Hfile & _).
  - discriminate.
  - discriminate.
  - reflexivity.
  - reflexivity.
  - exists w'. split; [exact Hrun|exact Hfile].
Defined.

(** C10.  In import from a snippet the remote fetch comes first: for
    every invocation with both parameters given, the first event of the
    call is the fetch, so whatever probes the filesystem comes after it;
    and when the fetch returned and the name is taken, the call is
    refused with CANCELLED after the fetch, the probe of the presets
    directory and the probe of the target path, in this order. *)
Theorem from_gist_fetches_first `{Collaborators}
    (self : SvPresetFromGist.t) (w : World) :
  SvPresetFromGist.preset_name self ≠ "" →
  SvPresetFromGist.gist_id self ≠ "" →
  ∃ r w' evs,
    SvPresetFromGist.execute self w = (r, w') ∧
    trace w' = trace w ++ NetFetch (SvPresetFromGist.gist_id self) :: evs ∧
    (∀ e v,
       fs w !! os_path.join user_resource (SvPresetFromGist.preset_name self +:+ ".json")
         = Some e →
       gist_content (SvPresetFromGist.gist_id self) = Returned v →
       r = Returned CANCELLED ∧
       evs = dir_events w ++
             [SysExists
                (os_path.join user_resource
                   (SvPresetFromGist.preset_name self +:+ ".json"));
              Log LOG_ERROR (refusal (SvPresetFromGist.preset_name self));
              Report ERROR (refusal (SvPresetFromGist.preset_name self))]).
Proof.
  intros Hn Hg.
  set (target := os_path.join user_resource _) in *.
  set (gid := SvPresetFromGist.gist_id self) in *.
  rewrite from_gist_run by done. fold gid target. simpl.
  destruct (gist_content gid) as [v|err] eqn:Hf.
  - destruct (fs (ensure_dir (with_event (NetFetch gid) w)) !! target) as [e'|] eqn:Ht.
    + eexists _, _, _. split; [reflexivity|]. simpl.
      rewrite ensure_dir_trace. simpl. rewrite <-!app_assoc. simpl.
      split; [reflexivity|]. intros e v' He _. split; reflexivity.
    + eexists _, _, _. split; [reflexivity|]. simpl.
      rewrite ensure_dir_trace. simpl. rewrite <-!app_assoc. simpl.
      split; [reflexivity|]. intros e v' He _.
      apply ensure_dir_lookup_Some in He.
      rewrite <-(ensure_dir_after_event_fs (NetFetch gid)) in He. congruence.
  - eexists _, _, []. split; [reflexivity|]. simpl.
    split; [reflexivity|]. intros e v' _ [=].
Qed.

Lemma from_gist_fetches_first_witness :
  ∃ w',
    SvPresetFromGist.execute (H := demo_host)
      (SvPresetFromGist.mk "abc" "foo") demo_world = (Returned CANCELLED, w') ∧
    trace w' =
      [NetFetch "abc"; SysExists "/home/u/presets";
       SysExists "/home/u/presets/foo.json";
       Log LOG_ERROR (refusal "foo"); Report ERROR (refusal "foo")].
Proof.
  destruct (from_gist_fetches_first (H := demo_host)
              (SvPresetFromGist.mk "abc" "foo") demo_world)
    as (r & w' & evs & Hrun & Htrace & Hrefused).
  - discriminate.
  - discriminate.
  - destruct (Hrefused (File (bytes_of "{foo}")) "{}" eq_refl eq_refl) as [-> ->].
    exists w'. split; [exact Hrun|exact Htrace].
Defined.

(** ** Rename *)

Section rename_facts.
Context `{Collaborators}.

Lemma dir_events_ensured (w : World) :
  dir_events (ensure_dir w) = [SysExists user_resource].
Proof. unfold dir_events. by destruct (ensure_dir_exists w) as [e ->]. Qed.

Lemma rename_probed_fs (self : SvRenamePreset.t) (w : World) :
  fs (rename_probed self w) = fs (ensure_dir w).
Proof. unfold rename_probed. simpl. apply ensure_dir_idem. Qed.

Lemma rename_probed_trace (self : SvRenamePreset.t) (w : World) :
  trace (rename_probed self w) =
  trace w ++ dir_events w ++
  [SysExists user_resource;
   SysExists (os_path.join user_resource (SvRenamePreset.new_name self +:+ ".json"))].
Proof.
  unfold rename_probed. simpl.
  rewrite !ensure_dir_trace, dir_events_ensured.
  by rewrite <-!app_assoc.
Qed.

Lemma rename_run (self : SvRenamePreset.t) (w : World) :
  SvRenamePreset.old_name self ≠ "" →
  SvRenamePreset.new_name self ≠ "" →
  SvRenamePreset.execute self w =
  let old_path := os_path.join user_resource (SvRenamePreset.old_name self +:+ ".json") in
  let new_path := os_path.join user_resource (SvRenamePreset.new_name self +:+ ".json") in
  let w1 := rename_probed self w in
  match fs (ensure_dir w) !! new_path with
  | Some _ =>
      (Returned CANCELLED,
       with_event (Report ERROR (refusal (SvRenamePreset.new_name self)))
         (with_event (Log LOG_ERROR (refusal (SvRenamePreset.new_name self))) w1))
  | None =>
      (os_rename old_path new_path ≫= λ _,
       info ("Renamed `" +:+ old_path +:+ "' to `" +:+ new_path +:+ "'");;
       report INFO ("Renamed `" +:+ SvRenamePreset.old_name self +:+ "' to `" +:+
                    SvRenamePreset.new_name self +:+ "'");;
       mret FINISHED) w1
  end.
Proof.
  intros Ho Hn. unfold SvRenamePreset.execute.
  rewrite (truthy_nonempty _ Ho), (truthy_nonempty _ Hn). simpl.
  rewrite run_bind, get_preset_path_run, run_bind, get_preset_path_run, run_bind.
  unfold os_path_exists. rewrite ensure_dir_idem.
  by destruct (fs (ensure_dir w) !! _) eqn:Ht.
Qed.

End rename_facts.



(** ** Save selected *)

Section save_selected_facts.
Context `{Collaborators}.

Lemma write_json_run (layout_dict : json) (path : string) (w : World) :
  fs w !! path ≠ Some Dir →
  write_json layout_dict path w =
  (Returned tt,
   with_fs (λ m, <[path := File (encode_utf8 (json_dumps layout_dict))]> m)
     (with_event (SysWrite path (encode_utf8 (json_dumps layout_dict)))
        (with_event (SysOpenWrite path) w))).
Proof.
  intros Hnd. unfold write_json. rewrite run_bind. unfold open_wb.
  assert (∀ (A : Type) (x y : A),
            match fs w !! path with Some Dir => x | _ => y end = y) as Hm.
  { intros A x y. destruct (fs w !! path) as [[|c]|]; congruence. }
  rewrite Hm. unfold file_write. simpl. rewrite lookup_insert_eq. simpl.
  unfold with_fs. simpl. by rewrite insert_insert_eq.
Qed.

Lemma save_selected_run (self : SvSaveSelected.t) (w : World) (ng : NodeTree) :
  SvSaveSelected.id_tree self ≠ "" →
  SvSaveSelected.preset_name self ≠ "" →
  node_groups w !! SvSaveSelected.id_tree self = Some ng →
  List.filter (λ n, select n) (nodes ng) ≠ [] →
  SvSaveSelected.execute self w =
  (destination_path ← get_preset_path (SvSaveSelected.preset_name self);
   write_json (create_dict_of_tree ng true) destination_path;;
   report INFO ("exported to: " +:+ destination_path);;
   info ("exported to: " +:+ destination_path);;
   mret FINISHED) w.
Proof.
  intros Hi Hn Hng Hsel. unfold SvSaveSelected.execute.
  rewrite (truthy_nonempty _ Hi), (truthy_nonempty _ Hn). simpl.
  rewrite run_bind. unfold node_groups_getitem. rewrite Hng.
  by destruct (List.filter _ (nodes ng)).
Qed.

End save_selected_facts.

(** C6 (as amended).  Save selected checks, before any effect on the
    filesystem, that the graph identifier is given, that the preset name
    is given and that the graph has a selected node; each failed check
    is logged and reported with its own message, returns CANCELLED and
    writes no file.  An identifier that names no graph is not such a
    check: the lookup raises [KeyError], with nothing logged, reported
    or written. *)
Theorem save_selected_validates `{Collaborators}
    (self : SvSaveSelected.t) (w : World) :
  (SvSaveSelected.id_tree self = "" →
   rejected "Node tree is not specified" w (SvSaveSelected.execute self w)) ∧
  (SvSaveSelected.id_tree self ≠ "" →
   SvSaveSelected.preset_name self = "" →
   rejected "Preset name is not specified" w (SvSaveSelected.execute self w)) ∧
  (SvSaveSelected.id_tree self ≠ "" →
   SvSaveSelected.preset_name self ≠ "" →
   ∀ ng, node_groups w !! SvSaveSelected.id_tree self = Some ng →
         List.filter (λ n, select n) (nodes ng) = [] →
         rejected "There are no selected nodes to export" w
           (SvSaveSelected.execute self w)) ∧
  (SvSaveSelected.id_tree self ≠ "" →
   SvSaveSelected.preset_name self ≠ "" →
   node_groups w !! SvSaveSelected.id_tree self = None →
   SvSaveSelected.execute self w = (Raised (KeyError (SvSaveSelected.id_tree self)), w)).
Proof.
  unfold SvSaveSelected.execute, rejected.
  split; [|split; [|split]].
  - intros ->. simpl. by rewrite <-app_assoc.
  - intros Hi ->. rewrite (truthy_nonempty _ Hi). simpl. by rewrite <-app_assoc.
  - intros Hi Hn ng Hng Hsel.
    rewrite (truthy_nonempty _ Hi), (truthy_nonempty _ Hn). simpl.
    rewrite run_bind. unfold node_groups_getitem. rewrite Hng, Hsel. simpl.
    by rewrite <-app_assoc.
  - intros Hi Hn Hng.
    rewrite (truthy_nonempty _ Hi), (truthy_nonempty _ Hn). simpl.
    rewrite run_bind. unfold node_groups_getitem. by rewrite Hng.
Qed.

Lemma save_selected_validates_witness :
  rejected "There are no selected nodes to export" demo_world
    (SvSaveSelected.execute (H := demo_host)
       (SvSaveSelected.mk "foo" "Idle") demo_world) ∧
  SvSaveSelected.execute (H := demo_host)
    (SvSaveSelected.mk "foo" "Nope") demo_world = (Raised (KeyError "Nope"), demo_world).
Proof.
  destruct (save_selected_validates (H := demo_host)
              (SvSaveSelected.mk "foo" "Idle") demo_world) as (_ & _ & Hsel & _).
  destruct (save_selected_validates (H := demo_host)
              (SvSaveSelected.mk "foo" "Nope") demo_world) as (_ & _ & _ & Hkey).
  split.
  - apply (Hsel ltac:(discriminate) ltac:(discriminate) idle_tree); reflexivity.
  - apply Hkey; [discriminate|discriminate|reflexivity].
Defined.

(** C6 as stated fails on an identifier that names no graph: the call
    does not return CANCELLED and reports nothing; [KeyError] escapes. *)
Lemma save_selected_unknown_tree :
  ∃ w',
    SvSaveSelected.execute (H := demo_host)
      (SvSaveSelected.mk "foo" "Nope") demo_world = (Raised (KeyError "Nope"), w') ∧
    node_groups demo_world !! "Nope" = None ∧
    trace w' = trace demo_world ∧
    ¬ rejected "Node tree is not specified" demo_world
        (SvSaveSelected.execute (H := demo_host)
           (SvSaveSelected.mk "foo" "Nope") demo_world).
Proof.
  exists demo_world. split; [reflexivity|]. split; [reflexivity|].
  split; [reflexivity|]. intros [Hr _]. discriminate Hr.
Qed.



(** ** Export to the snippet service *)

Lemma finally_return_run (block : M completion) (s : status) (w : World) :
  finally_return block s w = (Returned s, (block w).2).
Proof. unfold finally_return. by destruct (block w). Qed.

Section to_gist_facts.
Context `{Collaborators}.

Lemma to_gist_run (self : SvPresetToGist.t) (w : World) (raw : list byte) (body : string) :
  SvPresetToGist.preset_name self ≠ "" →
  fs w !! os_path.join user_resource (SvPresetToGist.preset_name self +:+ ".json")
    = Some (File raw) →
  decode_utf8 raw = Some body →
  SvPresetToGist.execute self w =
  finally_return
    (try_except
       (SvPresetToGist.upload_block
          (SvPresetToGist.preset_name self +:+ ".json")
          (SvPresetToGist.preset_name self) body)
       SvPresetToGist.upload_handler)
    FINISHED (upload_ready self w).
Proof.
  intros Hn Hfile Hdec. unfold SvPresetToGist.execute.
  rewrite (truthy_nonempty _ Hn). simpl.
  rewrite run_bind, get_preset_path_run, run_bind. unfold read_rb.
  rewrite (ensure_dir_lookup_Some _ _ _ Hfile).
  rewrite run_bind. unfold decode. by rewrite Hdec.
Qed.

End to_gist_facts.

(** C1.  Export to a snippet: for every invocation with the preset name
    given and a preset file that reads and decodes, the operation
    returns FINISHED whatever the upload does.  When the upload raises
    an exception, the exception is logged and an error is reported, and
    the status is FINISHED all the same, never CANCELLED; on the path
    without exception the address goes to the clipboard and the status
    is FINISHED too. *)
Theorem to_gist_always_finished `{Collaborators}
    (self : SvPresetToGist.t) (w : World) (raw : list byte) (body : string) :
  SvPresetToGist.preset_name self ≠ "" →
  let path := os_path.join user_resource (SvPresetToGist.preset_name self +:+ ".json") in
  let filename := SvPresetToGist.preset_name self +:+ ".json" in
  let description := SvPresetToGist.preset_name self in
  fs w !! path = Some (File raw) →
  decode_utf8 raw = Some body →
  ∃ w',
    SvPresetToGist.execute self w = (Returned FINISHED, w') ∧
    (∀ err, gist_upload filename description body = Raised err →
            is_Exception err = true →
       clipboard w' = clipboard w ∧
       trace w' =
         trace w ++ dir_events w ++
         [SysOpenRead path; NetUpload filename description body;
          LogException err;
          Report ERROR "Error uploading the gist, check your internet connection!"]) ∧
    (∀ url, gist_upload filename description body = Returned url →
            registry_append url filename = Returned tt →
       clipboard w' = url ∧
       trace w' =
         trace w ++ dir_events w ++
         [SysOpenRead path; NetUpload filename description body;
          Log LOG_INFO url; Report WARNING "Copied gist URL to clipboad";
          RegistryAppend url filename]).
Proof.
  intros Hn path filename description Hfile Hdec.
  eexists. split.
  { rewrite (to_gist_run self w raw body) by done. apply finally_return_run. }
  unfold try_except, SvPresetToGist.upload_block, main_upload_function.
  rewrite run_bind, run_emit_bind. unfold lift_outcome. fold filename description.
  split.
  - intros err -> Herr. rewrite Herr. simpl.
    split; [apply ensure_dir_rest|].
    rewrite ensure_dir_trace. by rewrite <-!app_assoc.
  - intros url -> Hreg. simpl.
    unfold write_or_append_datafiles. rewrite !run_bind. simpl.
    unfold lift_outcome. rewrite Hreg. simpl.
    split; [done|].
    rewrite ensure_dir_trace. by rewrite <-!app_assoc.
Qed.

Lemma to_gist_always_finished_witness :
  ∃ w',
    SvPresetToGist.execute (H := offline_host)
      (SvPresetToGist.mk "foo") demo_world = (Returned FINISHED, w') ∧
    trace w' =
      [SysExists "/home/u/presets"; SysOpenRead "/home/u/presets/foo.json";
       NetUpload "foo.json" "foo" "{foo}";
       LogException (PyException "URLError");
       Report ERROR "Error uploading the gist, check your internet connection!"].
Proof.
  destruct (to_gist_always_finished (H := offline_host)
              (SvPresetToGist.mk "foo") demo_world (bytes_of "{foo}") "{foo}")
    as (w' & Hrun & Hraised & _).
  - discriminate.
  - reflexivity.
  - reflexivity.
  - exists w'. split; [exact Hrun|].
    apply (Hraised (PyException "URLError")); reflexivity.
Defined.

(** ** Listing *)

Lemma rfind_lower (c : ascii) (s : string) : -1 ≤ PyStr.rfind c s.
Proof.
  induction s as [|a r IH]; simpl; [lia|].
  destruct (0 <=? PyStr.rfind c r) eqn:Hi; [lia|].
  destruct (Ascii.eqb a c); lia.
Qed.

Lemma rfind_absent (c : ascii) (s : string) :
  PyStr.contains c s = false → PyStr.rfind c s = -1.
Proof.
  induction s as [|a r IH]; simpl; [done|].
  intros [Ha Hr]%orb_false_iff. rewrite (IH Hr), Ha. done.
Qed.

Lemma rfind_negative_absent (c : ascii) (s : string) :
  PyStr.rfind c s < 0 → PyStr.contains c s = false.
Proof.
  induction s as [|a r IH]; simpl; [done|].
  pose proof (rfind_lower c r).
  destruct (0 <=? PyStr.rfind c r) eqn:Hi; [lia|].
  apply Z.leb_gt in Hi.
  destruct (Ascii.eqb a c); [lia|]. intros _. by rewrite IH.
Qed.

Lemma rfind_app_sep (c : ascii) (a b : string) :
  PyStr.contains c b = false →
  PyStr.rfind c (a +:+ String c b) = Z.of_nat (String.length a).
Proof.
  intros Hb. induction a as [|x a IH].
  - change (PyStr.rfind c (String c b) = 0). simpl.
    by rewrite (rfind_absent _ _ Hb), Ascii.eqb_refl.
  - rewrite append_cons. simpl PyStr.rfind. rewrite IH.
    destruct (0 <=? Z.of_nat (String.length a)) eqn:Hi; [simpl; lia|].
    apply Z.leb_gt in Hi. lia.
Qed.

Lemma take_length_app (a b : string) : PyStr.take (String.length a) (a +:+ b) = a.
Proof.
  induction a as [|x a IH]; [by destruct b|].
  rewrite append_cons. simpl. by rewrite IH.
Qed.

Lemma drop_length_app (a b : string) : PyStr.drop (String.length a) (a +:+ b) = b.
Proof. induction a as [|x a IH]; [done|]. by rewrite append_cons. Qed.

Lemma length_app_one (a : string) (c : ascii) :
  String.length (a +:+ String c "") = S (String.length a).
Proof. induction a as [|x a IH]; [done|]. rewrite append_cons. simpl. by rewrite IH. Qed.

Lemma app_sep_assoc (a : string) (c : ascii) (b : string) :
  a +:+ String c b = (a +:+ String c "") +:+ b.
Proof. by rewrite append_assoc. Qed.

Lemma all_eq_app_sep (c : ascii) (a : string) :
  a ≠ "" → PyStr.endswith a c = false → PyStr.all_eq c (a +:+ String c "") = false.
Proof.
  induction a as [|x a IH]; [done|]. intros _ He.
  rewrite append_cons. simpl PyStr.all_eq.
  destruct a as [|y a'].
  - simpl in He. by rewrite He.
  - rewrite IH; [apply andb_false_r|done|done].
Qed.

Lemma rstrip_app_sep (c : ascii) (a : string) :
  PyStr.endswith a c = false → os_path.rstrip c (a +:+ String c "") = a.
Proof.
  induction a as [|x a IH]; intros He.
  - change (os_path.rstrip c (String c "") = ""). simpl. by rewrite Ascii.eqb_refl.
  - rewrite append_cons. simpl os_path.rstrip.
    destruct a as [|y a'].
    + change (os_path.rstrip c ("" +:+ String c "")) with (os_path.rstrip c (String c "")).
      simpl. rewrite Ascii.eqb_refl. simpl in He. by rewrite He.
    + rewrite IH by done. done.
Qed.

Lemma contains_startswith (c : ascii) (s : string) :
  PyStr.contains c s = false → PyStr.startswith s c = false.
Proof. destruct s; [done|]. simpl. by intros [? _]%orb_false_iff. Qed.

(** The directory part and the last component of a joined path are the
    two arguments again. *)
Lemma split_join (a b : string) :
  PyStr.endswith a PyStr.slash = false →
  PyStr.contains PyStr.slash b = false →
  os_path.split (os_path.join a b) = (a, b).
Proof.
  intros Ha Hb. unfold os_path.join.
  rewrite (contains_startswith _ _ Hb), Ha.
  destruct a as [|x a].
  - simpl negb. simpl orb. cbv iota.
    change ("" +:+ b) with b. unfold os_path.split.
    rewrite (rfind_absent _ _ Hb). simpl. by destruct b.
  - simpl negb. simpl orb. cbv iota.
    set (d := String x a) in *.
    change (d +:+ "/" +:+ b) with (d +:+ String PyStr.slash b).
    unfold os_path.split. rewrite (rfind_app_sep _ _ _ Hb).
    replace (Z.to_nat (Z.of_nat (String.length d) + 1))
      with (String.length (d +:+ String PyStr.slash "")).
    2:{ rewrite length_app_one. lia. }
    rewrite (app_sep_assoc d PyStr.slash b), take_length_app, drop_length_app.
    rewrite all_eq_app_sep by done.
    rewrite rstrip_app_sep by done.
    by destruct d.
Qed.

Lemma fnmatch_json_literal (name : string) :
  fnmatch ".json" name = true ↔ name = ".json".
Proof.
  split; [|by intros ->].
  destruct name as [|a1 [|a2 [|a3 [|a4 [|a5 [|a6 r]]]]]]; simpl; intros Hm;
    repeat match goal with
           | Hc : _ && _ = true |- _ =>
               let Ha := fresh "Ha" in
               apply andb_prop in Hc as [Ha Hc]; apply Ascii.eqb_eq in Ha
           end;
    by subst.
Qed.

Lemma fnmatch_star_json_cons (a : ascii) (r : string) :
  fnmatch "*.json" (String a r) = fnmatch ".json" (String a r) || fnmatch "*.json" r.
Proof. reflexivity. Qed.

Lemma fnmatch_star_json (name : string) :
  fnmatch "*.json" name = true ↔ str_suffix ".json" name.
Proof.
  induction name as [|a r IH].
  - split; [done|]. intros [l Hl]. by destruct l.
  - rewrite fnmatch_star_json_cons, orb_true_iff, fnmatch_json_literal, IH.
    split.
    + intros [->|[l ->]]; [by exists ""|]. exists (String a l). by rewrite append_cons.
    + intros [l Hl]. destruct l as [|x l].
      * left. done.
      * right. rewrite append_cons in Hl. injection Hl as _ ->. by exists l.
Qed.

Lemma prefix_spec (pre k : string) :
  String.prefix pre k = true ↔ str_prefix pre k.
Proof.
  revert k. induction pre as [|a pre IH]; intros k.
  - split; [by exists k|by destruct k].
  - destruct k as [|b k]; simpl.
    + split; [done|]. by intros [r Hr].
    + destruct (ascii_dec a b) as [->|Hne].
      * rewrite IH. split; intros [r Hr]; exists r.
        -- by rewrite append_cons, <-Hr.
        -- rewrite append_cons in Hr. by injection Hr.
      * split; [done|]. intros [r Hr]. rewrite append_cons in Hr. congruence.
Qed.

Lemma join_empty_app (d name : string) :
  PyStr.startswith name PyStr.slash = false →
  os_path.join d name = os_path.join d "" +:+ name.
Proof.
  intros Hn. unfold os_path.join. rewrite Hn. simpl PyStr.startswith. cbv iota.
  destruct (negb (PyStr.truthy d) || PyStr.endswith d PyStr.slash).
  - by rewrite append_nil_r.
  - by rewrite !append_assoc.
Qed.

Lemma child_name_Some (d k name : string) :
  child_name d k = Some name ↔
  k = os_path.join d name ∧ PyStr.truthy name = true ∧
  PyStr.contains PyStr.slash name = false.
Proof.
  unfold child_name. split.
  - destruct (String.prefix _ k) eqn:Hp; [|done].
    apply prefix_spec in Hp as [r ->]. rewrite drop_length_app.
    destruct (PyStr.truthy r) eqn:Ht; [|done].
    destruct (PyStr.contains PyStr.slash r) eqn:Hc; [done|].
    intros [= <-]. split; [|done].
    by rewrite (join_empty_app d r) by by apply contains_startswith.
  - intros (-> & Ht & Hc).
    rewrite (join_empty_app d name) by by apply contains_startswith.
    rewrite (proj2 (prefix_spec _ _)) by by eexists.
    by rewrite drop_length_app, Ht, Hc.
Qed.


Lemma elem_of_List_filter {A : Type} (f : A → bool) (l : list A) (x : A) :
  x ∈ List.filter f l ↔ x ∈ l ∧ f x = true.
Proof. by rewrite !list_elem_of_In, filter_In. Qed.

Section listing_facts.
Context `{Collaborators}.

Lemma elem_of_listed_names (m : gmap string entry) (name : string) :
  name ∈ listed_names m ↔
  m !! user_resource = Some Dir ∧
  is_Some (m !! os_path.join user_resource name) ∧
  PyStr.truthy name = true ∧ PyStr.contains PyStr.slash name = false.
Proof.
  unfold listed_names.
  destruct (m !! user_resource) as [[|c]|] eqn:Hd.
  2,3: split; [by intros ?%elem_of_nil|by intros [? _]].
  rewrite list_elem_of_omap. split.
  - intros (k & Hk & (-> & Ht & Hc)%child_name_Some).
    apply list_elem_of_fmap in Hk as ([k' e] & -> & Hke%elem_of_map_to_list).
    simpl in *. eauto.
  - intros (_ & [e He] & Ht & Hc).
    exists (os_path.join user_resource name). split.
    + apply list_elem_of_fmap. exists (os_path.join user_resource name, e).
      split; [done|]. by apply elem_of_map_to_list.
    + by apply child_name_Some.
Qed.


Lemma suffix_json_truthy (name : string) : str_suffix ".json" name → PyStr.truthy name = true.
Proof. intros [l ->]. by destruct l. Qed.

Lemma elem_of_globbed (m : gmap string entry) (p : string) :
  p ∈ os_path.join user_resource <$> glob1 "*.json" (listed_names m) ↔ json_entry m p.
Proof.
  unfold glob1, json_entry. simpl ishidden. cbv iota.
  rewrite list_elem_of_fmap. split.
  - intros (name & -> & Hn).
    apply elem_of_List_filter in Hn as [Hn Hm].
    apply elem_of_List_filter in Hn as [Hn Hh].
    apply elem_of_listed_names in Hn as (Hd & He & Ht & Hc).
    split; [done|]. exists name.
    split; [done|]. split; [done|]. split; [by apply fnmatch_star_json|].
    split; [by apply negb_true_iff|done].
  - intros (Hd & name & -> & Hc & Hs & Hh & He).
    exists name. split; [done|].
    apply elem_of_List_filter. split; [|by apply fnmatch_star_json].
    apply elem_of_List_filter. split; [|by rewrite Hh].
    apply elem_of_listed_names. eauto using suffix_json_truthy.
Qed.


Lemma get_preset_paths_run (w : World) :
  PyStr.endswith user_resource PyStr.slash = false →
  get_preset_paths w =
  (Returned (sorted (os_path.join user_resource <$>
                       glob1 "*.json" (listed_names (fs (ensure_dir w))))),
   with_event (SysListdir user_resource) (ensure_dir w)).
Proof.
  intros Hroot. unfold get_preset_paths.
  rewrite run_bind, get_presets_directory_run, run_bind.
  unfold glob. by rewrite split_join.
Qed.

Lemma get_presets_loop_run (paths : list string) (result : list SvPreset.t) (w : World) :
  get_presets_loop paths result w =
  (Returned (result ++ ((λ p, SvPreset.mk None (Some p)) <$> paths)), w).
Proof.
  revert result. induction paths as [|p paths IH]; intros result; simpl.
  - by rewrite app_nil_r.
  - rewrite run_bind. unfold lift_outcome. simpl. rewrite IH.
    by rewrite <-app_assoc.
Qed.


End listing_facts.




(** ** The preset entity *)

Lemma take_drop (n : nat) (s : string) : PyStr.take n s +:+ PyStr.drop n s = s.
Proof.
  revert s. induction n as [|n IH]; intros [|a r]; simpl; try done.
  rewrite append_cons. by rewrite IH.
Qed.

Lemma contains_take (c : ascii) (n : nat) (s : string) :
  PyStr.contains c s = false → PyStr.contains c (PyStr.take n s) = false.
Proof.
  revert s. induction n as [|n IH]; intros [|a r]; simpl; try done.
  intros [Ha Hr]%orb_false_iff. by rewrite Ha, IH.
Qed.

Lemma contains_app (c : ascii) (a b : string) :
  PyStr.contains c (a +:+ b) = PyStr.contains c a || PyStr.contains c b.
Proof.
  induction a as [|x a IH]; [done|].
  rewrite append_cons. simpl. by rewrite IH, orb_assoc.
Qed.

(** What follows the last occurrence of a character holds it no more. *)
Lemma drop_after_rfind (c : ascii) (s : string) :
  PyStr.contains c (PyStr.drop (Z.to_nat (PyStr.rfind c s + 1)) s) = false.
Proof.
  induction s as [|a r IH]; [done|].
  simpl PyStr.rfind. pose proof (rfind_lower c r) as Hlo.
  destruct (0 <=? PyStr.rfind c r) eqn:Hi.
  - apply Z.leb_le in Hi.
    replace (Z.to_nat (PyStr.rfind c r + 1 + 1))
      with (S (Z.to_nat (PyStr.rfind c r + 1))) by lia.
    exact IH.
  - apply Z.leb_gt in Hi.
    pose proof (rfind_negative_absent c r Hi) as Hr.
    destruct (Ascii.eqb a c) eqn:Ha; simpl; [done|].
    by rewrite Ha, Hr.
Qed.

(** From the last occurrence of a character on: the character, then a
    rest without it. *)
Lemma drop_at_rfind (c : ascii) (s : string) :
  0 ≤ PyStr.rfind c s →
  ∃ t, PyStr.drop (Z.to_nat (PyStr.rfind c s)) s = String c t ∧
       PyStr.contains c t = false.
Proof.
  induction s as [|a r IH]; [simpl; lia|].
  simpl PyStr.rfind. pose proof (rfind_lower c r) as Hlo.
  destruct (0 <=? PyStr.rfind c r) eqn:Hi.
  - apply Z.leb_le in Hi. intros _.
    replace (Z.to_nat (PyStr.rfind c r + 1)) with (S (Z.to_nat (PyStr.rfind c r))) by lia.
    by apply IH.
  - apply Z.leb_gt in Hi.
    pose proof (rfind_negative_absent c r Hi) as Hr.
    destruct (Ascii.eqb a c) eqn:Ha; [|lia].
    apply Ascii.eqb_eq in Ha as ->. intros _. by exists r.
Qed.

Lemma basename_no_sep (p : string) :
  PyStr.contains PyStr.slash (os_path.basename p) = false.
Proof. apply drop_after_rfind. Qed.

(** [splitext] cuts its argument in two; the second part is empty or a
    dot followed by characters other than the dot. *)
Lemma splitext_parts (s : string) :
  (os_path.splitext s).1 +:+ (os_path.splitext s).2 = s ∧
  ((os_path.splitext s).2 = "" ∨
   ∃ t, (os_path.splitext s).2 = String PyStr.dot t ∧
        PyStr.contains PyStr.dot t = false).
Proof.
  unfold os_path.splitext.
  pose proof (rfind_lower PyStr.slash s) as Hlo.
  destruct (PyStr.rfind PyStr.slash s <? PyStr.rfind PyStr.dot s) eqn:Hlt.
  2:{ simpl. rewrite append_nil_r. by split; [|left]. }
  destruct (PyStr.all_eq _ _).
  { simpl. rewrite append_nil_r. by split; [|left]. }
  apply Z.ltb_lt in Hlt. simpl. split; [apply take_drop|].
  right. apply drop_at_rfind. lia.
Qed.

Lemma stem_spec (p : string) :
  PyStr.contains PyStr.slash (SvPreset.stem p) = false ∧
  ∃ ext, os_path.basename p = SvPreset.stem p +:+ ext ∧
         (ext = "" ∨ ∃ t, ext = String PyStr.dot t ∧ PyStr.contains PyStr.dot t = false).
Proof.
  unfold SvPreset.stem.
  pose proof (splitext_parts (os_path.basename p)) as [Hcat Hext].
  pose proof (basename_no_sep p) as Hb.
  destruct (os_path.splitext (os_path.basename p)) as [name ext]. simpl in *.
  split; [|by exists ext].
  rewrite <-Hcat, contains_app in Hb. by apply orb_false_iff in Hb as [? _].
Qed.

Section preset_facts.
Context `{Collaborators}.

Lemma set_name_run (self : SvPreset.t) (n : string) (w : World) :
  SvPreset.set_name self n w =
  (Returned (SvPreset.mk (Some n) (Some (os_path.join user_resource (n +:+ ".json")))),
   ensure_dir w).
Proof.
  unfold SvPreset.set_name. by rewrite run_bind, get_preset_path_run.
Qed.

Lemma set_path_run (self : SvPreset.t) (p : string) (w : World) :
  SvPreset.set_path self p w =
  (Returned (SvPreset.mk (Some (SvPreset.stem p)) (Some p)), w).
Proof. done. Qed.

Lemma assign_run (self : SvPreset.t) (a : SvPreset.assignment) (w : World) :
  ∃ self' w',
    SvPreset.assign self a w = (Returned self', w') ∧
    fields_agree self' ∧
    same_files (fs w) (fs w').
Proof.
  destruct a as [n|p]; simpl.
  - eexists _, _. split; [apply set_name_run|].
    split; [by left|apply ensure_dir_files].
  - eexists _, _. split; [apply set_path_run|].
    split; [by right|done].
Qed.

Lemma same_files_trans (m1 m2 m3 : gmap string entry) :
  same_files m1 m2 → same_files m2 m3 → same_files m1 m3.
Proof. intros H12 H23 q c. etrans; [apply H23|apply H12]. Qed.

Lemma assign_all_run (l : list SvPreset.assignment) (self : SvPreset.t) (w : World) :
  fields_agree self →
  ∃ self' w',
    SvPreset.assign_all self l w = (Returned self', w') ∧
    fields_agree self' ∧
    same_files (fs w) (fs w').
Proof.
  revert self w. induction l as [|a l IH]; intros self w Hself.
  - by exists self, w.
  - destruct (assign_run self a w) as (self1 & w1 & Hrun1 & Hagree1 & Hfiles1).
    destruct (IH self1 w1 Hagree1) as (self2 & w2 & Hrun2 & Hagree2 & Hfiles2).
    exists self2, w2. split; [|split; [done|by eapply same_files_trans]].
    simpl. by rewrite run_bind, Hrun1.
Qed.

Lemma assign_all_app (l1 l2 : list SvPreset.assignment) (self : SvPreset.t) (w : World) :
  SvPreset.assign_all self (l1 ++ l2) w =
  match SvPreset.assign_all self l1 w with
  | (Returned self', w') => SvPreset.assign_all self' l2 w'
  | (Raised e, w') => (Raised e, w')
  end.
Proof.
  revert self w. induction l1 as [|a l1 IH]; intros self w; [done|].
  simpl. rewrite !run_bind.
  destruct (SvPreset.assign self a w) as [[self1|e] w1]; [apply IH|done].
Qed.

Lemma observe_run (self : SvPreset.t) (w : World) :
  fields_agree self →
  ∃ n p w',
    SvPreset.observe self w = (Returned (n, p), w') ∧
    SvPreset.consistent n p ∧
    same_files (fs w) (fs w') ∧
    n = match SvPreset._name self, SvPreset._path self with
        | Some n0, _ => n0
        | None, Some p0 => SvPreset.stem p0
        | None, None => n
        end ∧
    p = match SvPreset._path self, SvPreset._name self with
        | Some p0, _ => p0
        | None, Some n0 => os_path.join user_resource (n0 +:+ ".json")
        | None, None => p
        end.
Proof.
  destruct self as [[n0|] [p0|]]; unfold fields_agree; simpl; intros Hagree.
  - by exists n0, p0, w.
  - eexists n0, _, _. split.
    { unfold SvPreset.observe, SvPreset.get_name, SvPreset.get_path. simpl.
      rewrite run_bind. simpl. rewrite run_bind, run_bind, get_preset_path_run.
      reflexivity. }
    split; [by left|]. split; [apply ensure_dir_files|done].
  - exists (SvPreset.stem p0), p0, w. split; [done|].
    split; [by right|done].
  - done.
Qed.

End preset_facts.

(** C9 (as amended).  For every preset constructed from a name alone,
    from a path alone, or from a name and a path that agree, and after
    any sequence of assignments to its name and path, the two accessors
    return a name and a path that are consistent: the path is where the
    resolver puts the name, or the name is the stem of the path.  A
    preset constructed from a path [p0] reads as the stem of [p0], which
    has no directory part and has lost the extension; after the name was
    set to [n0], the path reads as exactly what [get_preset_path n0]
    returns.  No file is touched on the way. *)
Theorem preset_name_path_consistent `{Collaborators}
    (name path : option string) (l : list SvPreset.assignment) (w : World) :
  (name = None → path ≠ None) →
  (∀ n p, name = Some n → path = Some p → SvPreset.consistent n p) →
  ∃ self self' w1 n p w2,
    SvPreset.init name path = Returned self ∧
    SvPreset.assign_all self l w = (Returned self', w1) ∧
    SvPreset.observe self' w1 = (Returned (n, p), w2) ∧
    SvPreset.consistent n p ∧
    same_files (fs w) (fs w2) ∧
    (∀ p0, name = None → path = Some p0 → l = [] →
       n = SvPreset.stem p0 ∧ p = p0 ∧
       PyStr.contains PyStr.slash n = false ∧
       ∃ ext, os_path.basename p0 = n +:+ ext ∧
              (ext = "" ∨ ∃ t, ext = String PyStr.dot t ∧
                               PyStr.contains PyStr.dot t = false)) ∧
    (∀ l0 n0, l = l0 ++ [SvPreset.SetName n0] →
       n = n0 ∧ p = os_path.join user_resource (n0 +:+ ".json") ∧
       ∀ w0, (get_preset_path n0 w0).1 = Returned p).
Proof.
  intros Hgiven Hboth.
  assert (SvPreset.init name path = Returned (SvPreset.mk name path)) as Hinit.
  { destruct name, path; first [done | by destruct (Hgiven eq_refl)]. }
  assert (fields_agree (SvPreset.mk name path)) as Hagree.
  { unfold fields_agree. simpl.
    destruct name, path;
      first [done | by apply Hboth | by destruct (Hgiven eq_refl)]. }
  destruct (assign_all_run l _ w Hagree) as (self' & w1 & Hrun & Hagree' & Hfiles).
  destruct (observe_run self' w1 Hagree') as (n & p & w2 & Hobs & Hcons & Hfiles' & Hn & Hp).
  exists (SvPreset.mk name path), self', w1, n, p, w2.
  split; [done|]. split; [done|]. split; [done|]. split; [done|].
  split; [by eapply same_files_trans|].
  split.
  - intros p0 -> -> ->. simpl in Hrun. injection Hrun as <- <-. simpl in Hn, Hp.
    subst n p. split; [done|]. split; [done|]. apply stem_spec.
  - intros l0 n0 ->. rewrite assign_all_app in Hrun.
    destruct (assign_all_run l0 _ w Hagree) as (self0 & w0 & Hrun0 & _).
    rewrite Hrun0 in Hrun. simpl in Hrun.
    rewrite run_bind, set_name_run in Hrun. injection Hrun as <- <-.
    simpl in Hn, Hp. subst n p. split; [done|]. split; [done|].
    intros w3. by rewrite get_preset_path_run.
Qed.

Lemma preset_name_path_consistent_witness :
  ∃ w2,
    SvPreset.observe (H := demo_host)
      (SvPreset.mk None (Some "/home/u/presets/a b.json")) demo_world =
      (Returned ("a b", "/home/u/presets/a b.json"), w2).
Proof.
  destruct (preset_name_path_consistent (H := demo_host)
              None (Some "/home/u/presets/a b.json") [] demo_world)
    as (self & self' & w1 & n & p & w2 & Hinit & Hrun & Hobs & _ & _ & Hpath & _).
  - discriminate.
  - discriminate.
  - injection Hinit as <-. injection Hrun as <- <-.
    destruct (Hpath _ eq_refl eq_refl eq_refl) as (-> & -> & _).
    exists w2. exact Hobs.
Defined.

(** C9 as stated fails for a preset constructed from both a name and a
    path: the two are stored as given and read back as given, whether or
    not they agree. *)
Lemma preset_from_both_inconsistent :
  ∃ self,
    SvPreset.init (Some "a") (Some "/tmp/b.json") = Returned self ∧
    SvPreset.observe (H := demo_host) self demo_world =
      (Returned ("a", "/tmp/b.json"), demo_world) ∧
    ¬ SvPreset.consistent (H := demo_host) "a" "/tmp/b.json".
Proof.
  eexists. split; [reflexivity|]. split; [reflexivity|].
  intros [Hp|Hn]; [discriminate Hp|].
  vm_compute in Hn. discriminate Hn.
Qed.

(** *** Names and paths of ordinary presets determine each other *)

Lemma rfind_app_absent (c : ascii) (a b : string) :
  PyStr.contains c b = false → PyStr.rfind c (a +:+ b) = PyStr.rfind c a.
Proof.
  intros Hb. induction a as [|x a IH].
  - by apply rfind_absent.
  - rewrite append_cons. simpl. by rewrite IH.
Qed.

Lemma rfind_endswith (c : ascii) (s : string) :
  PyStr.endswith s c = true → PyStr.rfind c s = Z.of_nat (String.length s) - 1.
Proof.
  induction s as [|a r IH]; [done|].
  destruct r as [|b r'].
  - simpl. intros ->. done.
  - intros He. specialize (IH He). simpl PyStr.rfind in *.
    change (String.length (String a (String b r'))) with (S (String.length (String b r'))).
    rewrite IH.
    destruct (0 <=? Z.of_nat (String.length (String b r')) - 1) eqn:Hi; [lia|].
    apply Z.leb_gt in Hi. simpl in Hi. lia.
Qed.

Lemma basename_join (a b : string) :
  PyStr.contains PyStr.slash b = false →
  os_path.basename (os_path.join a b) = b.
Proof.
  intros Hb. destruct (PyStr.endswith a PyStr.slash) eqn:Ha.
  - unfold os_path.join. rewrite (contains_startswith _ _ Hb), Ha, orb_true_r.
    unfold os_path.basename.
    rewrite (rfind_app_absent _ _ _ Hb), (rfind_endswith _ _ Ha).
    replace (Z.to_nat (Z.of_nat (String.length a) - 1 + 1)) with (String.length a) by lia.
    apply drop_length_app.
  - pose proof (split_join a b Ha Hb) as Hs.
    unfold os_path.split in Hs. unfold os_path.basename.
    destruct (_ && _) in Hs; by injection Hs.
Qed.

Lemma splitext_json (n : string) :
  PyStr.contains PyStr.slash n = false →
  PyStr.all_eq PyStr.dot n = false →
  os_path.splitext (n +:+ ".json") = (n, ".json").
Proof.
  intros Hs Hd. unfold os_path.splitext.
  rewrite (rfind_absent PyStr.slash (n +:+ ".json")).
  2:{ rewrite contains_app, Hs. reflexivity. }
  change (n +:+ ".json") with (n +:+ String PyStr.dot "json").
  rewrite (rfind_app_sep PyStr.dot n "json") by reflexivity.
  replace (-1 <? Z.of_nat (String.length n)) with true by (symmetry; apply Z.ltb_lt; lia).
  unfold PyStr.slice. simpl PyStr.drop.
  replace (Z.to_nat (Z.of_nat (String.length n) - (-1 + 1))) with (String.length n) by lia.
  rewrite Nat2Z.id, take_length_app, drop_length_app, Hd. done.
Qed.

(** A name without separator that is not made of dots alone is the stem
    of the path the resolver gives it. *)
Lemma stem_of_preset_path `{Collaborators} (n : string) :
  PyStr.contains PyStr.slash n = false →
  PyStr.all_eq PyStr.dot n = false →
  SvPreset.stem (os_path.join user_resource (n +:+ ".json")) = n.
Proof.
  intros Hs Hd. unfold SvPreset.stem.
  rewrite basename_join by (rewrite contains_app, Hs; reflexivity).
  by rewrite splitext_json.
Qed.

(** * Further properties of the operators *)

(** ** Shared facts *)

Section present_facts.
Context `{Collaborators}.

Lemma ensure_dir_fs_present (w : World) (e : entry) :
  fs w !! user_resource = Some e → fs (ensure_dir w) = fs w.
Proof. intros He. by rewrite ensure_dir_fs, He. Qed.

Lemma dir_events_present (w : World) (e : entry) :
  fs w !! user_resource = Some e → dir_events w = [SysExists user_resource].
Proof. intros He. unfold dir_events. by rewrite He. Qed.

Lemma entries_kept_trans (m1 m2 m3 : gmap string entry) :
  entries_kept m1 m2 → entries_kept m2 m3 → entries_kept m1 m3.
Proof. intros H12 H23 q e Hq. by apply H23, H12. Qed.

End present_facts.

(** ** Delete *)

Section delete_facts.
Context `{Collaborators}.

Lemma delete_run (self : SvDeletePreset.t) (w : World) :
  SvDeletePreset.preset_name self ≠ "" →
  SvDeletePreset.execute self w =
  let path := os_path.join user_resource (SvDeletePreset.preset_name self +:+ ".json") in
  (os_remove path ≫= λ _,
   info ("Removed `" +:+ path +:+ "'");;
   report INFO ("Removed `" +:+ SvDeletePreset.preset_name self +:+ "'");;
   mret FINISHED) (ensure_dir w).
Proof.
  intros Hn. unfold SvDeletePreset.execute.
  rewrite (truthy_nonempty _ Hn). simpl.
  by rewrite run_bind, get_preset_path_run.
Qed.

End delete_facts.

(** X1.  Delete of a preset that is on disk: the operation returns
    FINISHED after one removal; the preset's path is free afterwards and
    every other path holds what it held (the presets directory apart,
    which is created when it was missing). *)
Theorem delete_removes_preset `{Collaborators}
    (self : SvDeletePreset.t) (w : World) (c : list byte) :
  SvDeletePreset.preset_name self ≠ "" →
  let path := os_path.join user_resource (SvDeletePreset.preset_name self +:+ ".json") in
  fs w !! path = Some (File c) →
  ∃ w',
    SvDeletePreset.execute self w = (Returned FINISHED, w') ∧
    fs w' !! path = None ∧
    (∀ q, q ≠ path → fs w' !! q = fs (ensure_dir w) !! q) ∧
    (∀ q c', q ≠ path → fs w' !! q = Some (File c') ↔ fs w !! q = Some (File c')) ∧
    trace w' =
      trace w ++ dir_events w ++
      [SysRemove path;
       Log LOG_INFO ("Removed `" +:+ path +:+ "'");
       Report INFO ("Removed `" +:+ SvDeletePreset.preset_name self +:+ "'")].
Proof.
  intros Hn path Hfile.
  pose proof (ensure_dir_lookup_Some _ _ _ Hfile) as Hfile'.
  eexists. split.
  { rewrite delete_run by done. simpl. fold path.
    rewrite run_bind. unfold os_remove. rewrite Hfile'. reflexivity. }
  simpl. split; [apply lookup_delete_eq|].
  split; [by intros q Hq; rewrite lookup_delete_ne|].
  split.
  { intros q c' Hq. rewrite lookup_delete_ne by done. apply ensure_dir_files. }
  rewrite ensure_dir_trace. by rewrite <-!app_assoc.
Qed.

Lemma delete_removes_preset_witness :
  ∃ w',
    SvDeletePreset.execute (H := demo_host) (SvDeletePreset.mk "foo") demo_world
      = (Returned FINISHED, w') ∧
    fs w' !! "/home/u/presets/foo.json" = None ∧
    fs w' !! "/home/u/presets/a.json" = Some (File (bytes_of "{a}")).
Proof.
  destruct (delete_removes_preset (H := demo_host)
              (SvDeletePreset.mk "foo") demo_world (bytes_of "{foo}"))
    as (w' & Hrun & Hgone & _ & Hothers & _).
  - discriminate.
  - reflexivity.
  - exists w'. split; [exact Hrun|]. split; [exact Hgone|].
    apply Hothers; [discriminate|reflexivity].
Defined.

(** X2.  Delete of a preset that is not on disk: the removal raises
    [FileNotFoundError], which the operation lets through; no file
    changes and nothing is logged or reported. *)
Theorem delete_missing_preset_raises `{Collaborators}
    (self : SvDeletePreset.t) (w : World) :
  SvDeletePreset.preset_name self ≠ "" →
  let path := os_path.join user_resource (SvDeletePreset.preset_name self +:+ ".json") in
  fs (ensure_dir w) !! path = None →
  ∃ w',
    SvDeletePreset.execute self w = (Raised (FileNotFoundError path), w') ∧
    fs w' = fs (ensure_dir w) ∧
    same_files (fs w) (fs w') ∧
    trace w' = trace w ++ dir_events w ++ [SysRemove path].
Proof.
  intros Hn path Hfree. eexists. split.
  { rewrite delete_run by done. simpl. fold path.
    rewrite run_bind. unfold os_remove. rewrite Hfree. reflexivity. }
  simpl. split; [done|]. split; [apply ensure_dir_files|].
  rewrite ensure_dir_trace. by rewrite <-!app_assoc.
Qed.

Lemma delete_missing_preset_raises_witness :
  ∃ w',
    SvDeletePreset.execute (H := demo_host) (SvDeletePreset.mk "nope") demo_world
      = (Raised (FileNotFoundError "/home/u/presets/nope.json"), w') ∧
    fs w' = fs demo_world.
Proof.
  destruct (delete_missing_preset_raises (H := demo_host)
              (SvDeletePreset.mk "nope") demo_world)
    as (w' & Hrun & Hfs & _).
  - discriminate.
  - reflexivity.
  - exists w'. split; [exact Hrun|]. rewrite Hfs. reflexivity.
Defined.

(** ** Missing parameters *)

(** X3.  Every operator refuses a missing parameter before anything
    else: the call returns CANCELLED, logs and reports the message of
    that parameter and nothing more, so that the filesystem is neither
    probed nor changed and the snippet service is not contacted.  The
    parameters are checked in the order of the source: for rename the
    old name before the new one, for the file and snippet operators the
    preset name before the path or the identifier. *)
Theorem operators_refuse_missing_parameters `{Collaborators} (w : World)
    (ren : SvRenamePreset.t) (del : SvDeletePreset.t)
    (to_gist : SvPresetToGist.t) (to_file : SvPresetToFile.t)
    (from_file : SvPresetFromFile.t) (from_gist : SvPresetFromGist.t) :
  (SvRenamePreset.old_name ren = "" →
   rejected "Old preset name is not specified" w (SvRenamePreset.execute ren w)) ∧
  (SvRenamePreset.old_name ren ≠ "" → SvRenamePreset.new_name ren = "" →
   rejected "New preset name is not specified" w (SvRenamePreset.execute ren w)) ∧
  (SvDeletePreset.preset_name del = "" →
   rejected "Preset name is not specified" w (SvDeletePreset.execute del w)) ∧
  (SvPresetToGist.preset_name to_gist = "" →
   rejected "Preset name is not specified" w (SvPresetToGist.execute to_gist w)) ∧
  (SvPresetToFile.preset_name to_file = "" →
   rejected "Preset name is not specified" w (SvPresetToFile.execute to_file w)) ∧
  (SvPresetToFile.preset_name to_file ≠ "" → SvPresetToFile.filepath to_file = "" →
   rejected "Target file path is not specified" w (SvPresetToFile.execute to_file w)) ∧
  (SvPresetFromFile.preset_name from_file = "" →
   rejected "Preset name is not specified" w (SvPresetFromFile.execute from_file w)) ∧
  (SvPresetFromFile.preset_name from_file ≠ "" → SvPresetFromFile.filepath from_file = "" →
   rejected "Source file path is not specified" w (SvPresetFromFile.execute from_file w)) ∧
  (SvPresetFromGist.preset_name from_gist = "" →
   rejected "Preset name is not specified" w (SvPresetFromGist.execute from_gist w)) ∧
  (SvPresetFromGist.preset_name from_gist ≠ "" → SvPresetFromGist.gist_id from_gist = "" →
   rejected "Gist ID is not specified" w (SvPresetFromGist.execute from_gist w)).
Proof.
  unfold rejected,
    SvRenamePreset.execute, SvDeletePreset.execute, SvPresetToGist.execute,
    SvPresetToFile.execute, SvPresetFromFile.execute, SvPresetFromGist.execute.
  repeat match goal with |- _ ∧ _ => split end;
    first [ intros ->
          | let Hn := fresh "Hn" in
            intros Hn ->; rewrite (truthy_nonempty _ Hn) ];
    simpl; by rewrite <-?app_assoc.
Qed.

Lemma operators_refuse_missing_parameters_witness :
  rejected "New preset name is not specified" demo_world
    (SvRenamePreset.execute (H := demo_host) (SvRenamePreset.mk "foo" "") demo_world) ∧
  rejected "Gist ID is not specified" demo_world
    (SvPresetFromGist.execute (H := demo_host) (SvPresetFromGist.mk "" "new") demo_world).
Proof.
  destruct (operators_refuse_missing_parameters (H := demo_host) demo_world
              (SvRenamePreset.mk "foo" "") (SvDeletePreset.mk "")
              (SvPresetToGist.mk "") (SvPresetToFile.mk "" "")
              (SvPresetFromFile.mk "" "") (SvPresetFromGist.mk "" "new"))
    as (_ & Hren & _ & _ & _ & _ & _ & _ & _ & Hgist).
  split.
  - apply Hren; [discriminate|reflexivity].
  - apply Hgist; [discriminate|reflexivity].
Defined.

(** ** Rename, continued *)

Section rename_more_facts.
Context `{Collaborators}.


End rename_more_facts.

(** X4.  Rename of a preset that is not on disk, to a free name: the
    rename raises [FileNotFoundError], which the operation lets through;
    the filesystem is left as the resolver left it and nothing is logged
    or reported. *)
Theorem rename_missing_preset_raises `{Collaborators}
    (self : SvRenamePreset.t) (w : World) :
  SvRenamePreset.old_name self ≠ "" →
  SvRenamePreset.new_name self ≠ "" →
  let old_path := os_path.join user_resource (SvRenamePreset.old_name self +:+ ".json") in
  let new_path := os_path.join user_resource (SvRenamePreset.new_name self +:+ ".json") in
  fs (ensure_dir w) !! old_path = None →
  fs (ensure_dir w) !! new_path = None →
  ∃ w',
    SvRenamePreset.execute self w = (Raised (FileNotFoundError old_path), w') ∧
    fs w' = fs (ensure_dir w) ∧
    same_files (fs w) (fs w') ∧
    trace w' =
      trace w ++ dir_events w ++
      [SysExists user_resource; SysExists new_path; SysRename old_path new_path].
Proof.
  intros Ho Hn old_path new_path Hold Hnew. eexists. split.
  { rewrite rename_run by done. simpl. fold old_path new_path.
    rewrite Hnew, run_bind. unfold os_rename.
    rewrite rename_probed_fs, Hold. reflexivity. }
  simpl. rewrite ensure_dir_idem. split; [done|].
  split; [apply ensure_dir_files|].
  rewrite !ensure_dir_trace, dir_events_ensured. by rewrite <-!app_assoc.
Qed.

Lemma rename_missing_preset_raises_witness :
  ∃ w',
    SvRenamePreset.execute (H := demo_host) (SvRenamePreset.mk "nope" "bar") demo_world
      = (Raised (FileNotFoundError "/home/u/presets/nope.json"), w') ∧
    fs w' = fs demo_world.
Proof.
  destruct (rename_missing_preset_raises (H := demo_host)
              (SvRenamePreset.mk "nope" "bar") demo_world)
    as (w' & Hrun & Hfs & _).
  - discriminate.
  - discriminate.
  - reflexivity.
  - reflexivity.
  - exists w'. split; [exact Hrun|]. rewrite Hfs. reflexivity.
Defined.

(** X5.  The rename dialog opens with the old name as the new one
    ([invoke]); confirming it unchanged for a preset that is on disk is
    refused as an overwrite: CANCELLED, the refusal names the preset, and
    no file changes. *)
Theorem rename_dialog_unchanged_is_refused `{Collaborators}
    (self : SvRenamePreset.t) (w : World) (e : entry) :
  SvRenamePreset.old_name self ≠ "" →
  fs w !! os_path.join user_resource (SvRenamePreset.old_name self +:+ ".json") = Some e →
  ∃ self' w' evs,
    SvRenamePreset_invoke self w = (Returned (self', RUNNING_MODAL), w) ∧
    SvRenamePreset.old_name self' = SvRenamePreset.old_name self ∧
    SvRenamePreset.new_name self' = SvRenamePreset.old_name self ∧
    SvRenamePreset.execute self' w = (Returned CANCELLED, w') ∧
    same_files (fs w) (fs w') ∧
    entries_kept (fs w) (fs w') ∧
    trace w' =
      trace w ++ evs ++
      [Log LOG_ERROR (refusal (SvRenamePreset.old_name self));
       Report ERROR (refusal (SvRenamePreset.old_name self))] ∧
    Forall (λ ev, is_file_update ev = false) evs.
Proof.
  intros Ho He.
  pose proof (ensure_dir_lookup_Some _ _ _ He) as He'.
  eexists _, _,
    (dir_events w ++
     [SysExists user_resource;
      SysExists (os_path.join user_resource (SvRenamePreset.old_name self +:+ ".json"))]).
  split; [reflexivity|]. split; [reflexivity|]. split; [reflexivity|].
  split.
  { rewrite rename_run by done. simpl. by rewrite He'. }
  simpl. rewrite ensure_dir_idem.
  split; [apply ensure_dir_files|]. split; [apply ensure_dir_kept|].
  split.
  - rewrite !ensure_dir_trace, dir_events_ensured. by rewrite <-!app_assoc.
  - apply Forall_app. split; [apply dir_events_quiet|]. repeat constructor.
Qed.

Lemma rename_dialog_unchanged_is_refused_witness :
  ∃ w',
    SvRenamePreset.execute (H := demo_host) (SvRenamePreset.mk "foo" "foo") demo_world
      = (Returned CANCELLED, w').
Proof.
  destruct (rename_dialog_unchanged_is_refused (H := demo_host)
              (SvRenamePreset.mk "foo" "anything") demo_world (File (bytes_of "{foo}")))
    as (self' & w' & evs & Hinv & _ & _ & Hrun & _).
  - discriminate.
  - reflexivity.
  - injection Hinv as <-. exists w'. exact Hrun.
Defined.



(** ** Export to the snippet service, continued *)

(** X7.  Export to a snippet reads the preset before the [try] block, so
    a failure of the reading is not swallowed: a preset that is not on
    disk raises [FileNotFoundError], a preset whose bytes do not decode
    raises [UnicodeDecodeError]; in both cases the snippet service is
    not contacted, the clipboard keeps its text and nothing is logged or
    reported. *)
Theorem to_gist_read_failures_escape `{Collaborators}
    (self : SvPresetToGist.t) (w : World) :
  SvPresetToGist.preset_name self ≠ "" →
  let path := os_path.join user_resource (SvPresetToGist.preset_name self +:+ ".json") in
  (fs (ensure_dir w) !! path = None →
   ∃ w',
     SvPresetToGist.execute self w = (Raised (FileNotFoundError path), w') ∧
     clipboard w' = clipboard w ∧
     trace w' = trace w ++ dir_events w ++ [SysOpenRead path]) ∧
  (∀ raw, fs w !! path = Some (File raw) → decode_utf8 raw = None →
   ∃ w',
     SvPresetToGist.execute self w = (Raised UnicodeDecodeError, w') ∧
     clipboard w' = clipboard w ∧
     trace w' = trace w ++ dir_events w ++ [SysOpenRead path]).
Proof.
  intros Hn path. unfold SvPresetToGist.execute.
  rewrite (truthy_nonempty _ Hn). simpl.
  rewrite run_bind, get_preset_path_run. fold path.
  rewrite run_bind. unfold read_rb. split.
  - intros ->. eexists. split; [reflexivity|]. simpl.
    split; [apply ensure_dir_rest|].
    rewrite ensure_dir_trace. by rewrite <-!app_assoc.
  - intros raw Hfile Hdec. rewrite (ensure_dir_lookup_Some _ _ _ Hfile).
    rewrite run_bind. unfold decode. rewrite Hdec.
    eexists. split; [reflexivity|]. simpl.
    split; [apply ensure_dir_rest|].
    rewrite ensure_dir_trace. by rewrite <-!app_assoc.
Qed.

Lemma to_gist_read_failures_escape_witness :
  ∃ w',
    SvPresetToGist.execute (H := demo_host) (SvPresetToGist.mk "nope") demo_world
      = (Raised (FileNotFoundError "/home/u/presets/nope.json"), w') ∧
    trace w' = [SysExists "/home/u/presets"; SysOpenRead "/home/u/presets/nope.json"].
Proof.
  destruct (to_gist_read_failures_escape (H := demo_host)
              (SvPresetToGist.mk "nope") demo_world) as [Hmissing _].
  - discriminate.
  - destruct (Hmissing eq_refl) as (w' & Hrun & _ & Htrace).
    exists w'. split; [exact Hrun|exact Htrace].
Defined.

(** X8.  The [return] in the [finally] clause also swallows what
    [except Exception] does not catch: when the upload raises an
    exception that is not an [Exception] (an interrupt, an exit), the
    operation still returns FINISHED, and this time nothing is logged or
    reported and the clipboard keeps its text. *)
Theorem to_gist_swallows_base_exception `{Collaborators}
    (self : SvPresetToGist.t) (w : World) (raw : list byte) (body : string) (err : exn) :
  SvPresetToGist.preset_name self ≠ "" →
  let path := os_path.join user_resource (SvPresetToGist.preset_name self +:+ ".json") in
  let filename := SvPresetToGist.preset_name self +:+ ".json" in
  let description := SvPresetToGist.preset_name self in
  fs w !! path = Some (File raw) →
  decode_utf8 raw = Some body →
  gist_upload filename description body = Raised err →
  is_Exception err = false →
  ∃ w',
    SvPresetToGist.execute self w = (Returned FINISHED, w') ∧
    clipboard w' = clipboard w ∧
    trace w' =
      trace w ++ dir_events w ++
      [SysOpenRead path; NetUpload filename description body].
Proof.
  intros Hn path filename description Hfile Hdec Hup Herr.
  eexists. split.
  { rewrite (to_gist_run self w raw body) by done. apply finally_return_run. }
  unfold try_except, SvPresetToGist.upload_block, main_upload_function.
  rewrite run_bind, run_emit_bind. unfold lift_outcome. fold filename description.
  rewrite Hup, Herr. simpl.
  split; [apply ensure_dir_rest|].
  rewrite ensure_dir_trace. by rewrite <-!app_assoc.
Qed.

Lemma to_gist_swallows_base_exception_witness :
  ∃ w',
    SvPresetToGist.execute
      (H := interrupted_host)
      (SvPresetToGist.mk "foo") demo_world = (Returned FINISHED, w') ∧
    trace w' =
      [SysExists "/home/u/presets"; SysOpenRead "/home/u/presets/foo.json";
       NetUpload "foo.json" "foo" "{foo}"].
Proof.
  destruct (to_gist_swallows_base_exception
              (H := interrupted_host)
              (SvPresetToGist.mk "foo") demo_world (bytes_of "{foo}") "{foo}"
              (PyBaseException "KeyboardInterrupt"))
    as (w' & Hrun & _ & Htrace).
  - discriminate.
  - reflexivity.
  - reflexivity.
  - reflexivity.
  - reflexivity.
  - exists w'. split; [exact Hrun|exact Htrace].
Defined.

(** X9.  When the upload succeeded but the registry of uploaded snippets
    cannot be appended to, the address is already on the clipboard and
    announced; the failure is then handled like a failed upload: it is
    logged, the upload error is reported, and the operation returns
    FINISHED. *)
Theorem to_gist_registry_failure `{Collaborators}
    (self : SvPresetToGist.t) (w : World) (raw : list byte) (body url : string) (err : exn) :
  SvPresetToGist.preset_name self ≠ "" →
  let path := os_path.join user_resource (SvPresetToGist.preset_name self +:+ ".json") in
  let filename := SvPresetToGist.preset_name self +:+ ".json" in
  let description := SvPresetToGist.preset_name self in
  fs w !! path = Some (File raw) →
  decode_utf8 raw = Some body →
  gist_upload filename description body = Returned url →
  registry_append url filename = Raised err →
  is_Exception err = true →
  ∃ w',
    SvPresetToGist.execute self w = (Returned FINISHED, w') ∧
    clipboard w' = url ∧
    trace w' =
      trace w ++ dir_events w ++
      [SysOpenRead path; NetUpload filename description body;
       Log LOG_INFO url; Report WARNING "Copied gist URL to clipboad";
       RegistryAppend url filename;
       LogException err;
       Report ERROR "Error uploading the gist, check your internet connection!"].
Proof.
  intros Hn path filename description Hfile Hdec Hup Hreg Herr.
  eexists. split.
  { rewrite (to_gist_run self w raw body) by done. apply finally_return_run. }
  unfold try_except, SvPresetToGist.upload_block, main_upload_function.
  rewrite run_bind, run_emit_bind. unfold lift_outcome. fold filename description.
  rewrite Hup. simpl.
  unfold write_or_append_datafiles. rewrite !run_bind. simpl.
  unfold lift_outcome. rewrite Hreg.
  unfold info, report, emit, mbind, M_bind. simpl. rewrite Herr. simpl.
  split; [done|].
  rewrite ensure_dir_trace. by rewrite <-!app_assoc.
Qed.

Lemma to_gist_registry_failure_witness :
  ∃ w',
    SvPresetToGist.execute (H := registry_down_host)
      (SvPresetToGist.mk "foo") demo_world = (Returned FINISHED, w') ∧
    clipboard w' = "https://gist.example/foo.json".
Proof.
  destruct (to_gist_registry_failure (H := registry_down_host)
              (SvPresetToGist.mk "foo") demo_world (bytes_of "{foo}") "{foo}"
              "https://gist.example/foo.json" (PyException "PermissionError"))
    as (w' & Hrun & Hclip & _).
  - discriminate.
  - reflexivity.
  - reflexivity.
  - reflexivity.
  - reflexivity.
  - reflexivity.
  - exists w'. split; [exact Hrun|exact Hclip].
Defined.

Section to_gist_frame.
Context `{Collaborators}.


End to_gist_frame.



(** ** Import from the snippet service, continued *)

(** X11.  A fetch that raises is not caught by import from a snippet
    (unlike a failed upload in the export): the exception escapes, and
    the filesystem has been neither probed nor changed, the fetch being
    the only event of the call. *)
Theorem from_gist_failed_fetch_escapes `{Collaborators}
    (self : SvPresetFromGist.t) (w : World) (err : exn) :
  SvPresetFromGist.preset_name self ≠ "" →
  SvPresetFromGist.gist_id self ≠ "" →
  gist_content (SvPresetFromGist.gist_id self) = Raised err →
  ∃ w',
    SvPresetFromGist.execute self w = (Raised err, w') ∧
    fs w' = fs w ∧
    clipboard w' = clipboard w ∧
    trace w' = trace w ++ [NetFetch (SvPresetFromGist.gist_id self)].
Proof.
  intros Hn Hg Hf. eexists. split.
  { rewrite from_gist_run by done. rewrite Hf. reflexivity. }
  done.
Qed.

Lemma from_gist_failed_fetch_escapes_witness :
  ∃ w',
    SvPresetFromGist.execute (H := offline_host)
      (SvPresetFromGist.mk "abc" "new") demo_world
      = (Raised (PyException "URLError"), w') ∧
    fs w' = fs demo_world.
Proof.
  destruct (from_gist_failed_fetch_escapes (H := offline_host)
              (SvPresetFromGist.mk "abc" "new") demo_world (PyException "URLError"))
    as (w' & Hrun & Hfs & _).
  - discriminate.
  - discriminate.
  - reflexivity.
  - exists w'. split; [exact Hrun|exact Hfs].
Defined.



(** ** Export to and import from an outer file *)

Lemma match_not_dir {A : Type} (o : option entry) (x y : A) :
  o ≠ Some Dir → match o with Some Dir => x | _ => y end = y.
Proof. destruct o as [[|c]|]; congruence. Qed.


Lemma shutil_copy_missing (src dst : string) (w : World) :
  fs w !! src = None →
  shutil_copy src dst w =
  (Raised (FileNotFoundError src), with_event (SysOpenRead src) w).
Proof.
  intros Hsrc. unfold shutil_copy. rewrite Hsrc.
  rewrite run_bind. unfold read_rb. by rewrite Hsrc.
Qed.

Lemma shutil_copy_same (p : string) (w : World) (c : list byte) :
  fs w !! p = Some (File c) →
  shutil_copy p p w =
  (Raised (PyException ("'" +:+ p +:+ "' and '" +:+ p +:+ "' are the same file")), w).
Proof.
  intros Hp. unfold shutil_copy. rewrite Hp.
  by rewrite bool_decide_eq_true_2.
Qed.

Section file_facts.
Context `{Collaborators}.

Lemma to_file_run (self : SvPresetToFile.t) (w : World) :
  SvPresetToFile.preset_name self ≠ "" →
  SvPresetToFile.filepath self ≠ "" →
  SvPresetToFile.execute self w =
  (shutil_copy
     (os_path.join user_resource (SvPresetToFile.preset_name self +:+ ".json"))
     (SvPresetToFile.filepath self) ≫= λ _,
   info ("Saved `" +:+ SvPresetToFile.preset_name self +:+ "' as `" +:+
         SvPresetToFile.filepath self +:+ "'");;
   report INFO ("Saved `" +:+ SvPresetToFile.preset_name self +:+ "' as `" +:+
                SvPresetToFile.filepath self +:+ "'");;
   mret FINISHED) (ensure_dir w).
Proof.
  intros Hn Hf. unfold SvPresetToFile.execute.
  rewrite (truthy_nonempty _ Hn), (truthy_nonempty _ Hf). simpl.
  by rewrite run_bind, get_preset_path_run.
Qed.

Lemma from_file_run (self : SvPresetFromFile.t) (w : World) :
  SvPresetFromFile.preset_name self ≠ "" →
  SvPresetFromFile.filepath self ≠ "" →
  SvPresetFromFile.execute self w =
  (shutil_copy
     (SvPresetFromFile.filepath self)
     (os_path.join user_resource (SvPresetFromFile.preset_name self +:+ ".json")) ≫= λ _,
   info ("Imported `" +:+ SvPresetFromFile.filepath self +:+ "' as `" +:+
         SvPresetFromFile.preset_name self +:+ "'");;
   report INFO ("Imported `" +:+ SvPresetFromFile.filepath self +:+ "' as `" +:+
                SvPresetFromFile.preset_name self +:+ "'");;
   mret FINISHED) (ensure_dir w).
Proof.
  intros Hn Hf. unfold SvPresetFromFile.execute.
  rewrite (truthy_nonempty _ Hn), (truthy_nonempty _ Hf). simpl.
  by rewrite run_bind, get_preset_path_run.
Qed.



End file_facts.



(** X14.  Export to a path that is a directory puts the copy inside it,
    under the base name of the preset's file ([<name>.json] for a name
    without separator), while the report still names the directory. *)
Theorem to_file_into_directory `{Collaborators}
    (self : SvPresetToFile.t) (w : World) (c : list byte) :
  SvPresetToFile.preset_name self ≠ "" →
  SvPresetToFile.filepath self ≠ "" →
  let path := os_path.join user_resource (SvPresetToFile.preset_name self +:+ ".json") in
  let inside := os_path.join (SvPresetToFile.filepath self) (os_path.basename path) in
  let msg := "Saved `" +:+ SvPresetToFile.preset_name self +:+ "' as `" +:+
             SvPresetToFile.filepath self +:+ "'" in
  fs w !! path = Some (File c) →
  fs (ensure_dir w) !! SvPresetToFile.filepath self = Some Dir →
  fs (ensure_dir w) !! inside ≠ Some Dir →
  inside ≠ path →
  ∃ w',
    SvPresetToFile.execute self w = (Returned FINISHED, w') ∧
    fs w' = <[inside := File c]> (fs (ensure_dir w)) ∧
    (PyStr.contains PyStr.slash (SvPresetToFile.preset_name self) = false →
     inside = os_path.join (SvPresetToFile.filepath self)
                (SvPresetToFile.preset_name self +:+ ".json")) ∧
    trace w' =
      trace w ++ dir_events w ++
      [SysOpenRead path; SysOpenWrite inside; SysWrite inside c;
       Log LOG_INFO msg; Report INFO msg].
Proof.
  intros Hn Hf path inside msg Hsrc Hdir Hdst Hne.
  pose proof (ensure_dir_lookup_Some _ _ _ Hsrc) as Hsrc'.
  eexists. split.
  { rewrite to_file_run by done. fold path.
    rewrite run_bind. unfold shutil_copy. rewrite Hdir, Hsrc'. fold inside.
    rewrite bool_decide_eq_false_2 by done.
    rewrite run_bind. unfold read_rb. rewrite Hsrc'.
    rewrite run_bind. unfold open_wb. simpl.
    rewrite (match_not_dir _ _ _ Hdst).
    unfold file_write, mbind, M_bind. simpl. rewrite lookup_insert_eq. simpl.
    reflexivity. }
  simpl. split; [by rewrite insert_insert_eq|].
  split.
  { intros Hs. unfold inside, path. rewrite basename_join; [done|].
    rewrite contains_app, Hs. reflexivity. }
  rewrite ensure_dir_trace. by rewrite <-!app_assoc.
Qed.

Lemma to_file_into_directory_witness :
  ∃ w',
    SvPresetToFile.execute (H := demo_host)
      (SvPresetToFile.mk "foo" "/home/u") demo_world = (Returned FINISHED, w') ∧
    fs w' !! "/home/u/foo.json" = Some (File (bytes_of "{foo}")).
Proof.
  destruct (to_file_into_directory (H := demo_host)
              (SvPresetToFile.mk "foo" "/home/u") demo_world (bytes_of "{foo}"))
    as (w' & Hrun & Hfs & _).
  - discriminate.
  - discriminate.
  - reflexivity.
  - reflexivity.
  - discriminate.
  - discriminate.
  - exists w'. split; [exact Hrun|]. rewrite Hfs. reflexivity.
Defined.



(** X16.  A failed import from a file does not damage the preset it
    would have replaced: when the source is not on disk the copy raises
    [FileNotFoundError], and when the source is the preset's own file it
    raises the same-file error; in both cases the exception escapes
    before the preset is opened for writing, so every file keeps its
    content. *)
Theorem from_file_failure_keeps_preset `{Collaborators}
    (self : SvPresetFromFile.t) (w : World) :
  SvPresetFromFile.preset_name self ≠ "" →
  SvPresetFromFile.filepath self ≠ "" →
  let path := os_path.join user_resource (SvPresetFromFile.preset_name self +:+ ".json") in
  let source := SvPresetFromFile.filepath self in
  (fs (ensure_dir w) !! source = None →
   ∃ w',
     SvPresetFromFile.execute self w = (Raised (FileNotFoundError source), w') ∧
     fs w' = fs (ensure_dir w) ∧
     same_files (fs w) (fs w') ∧
     trace w' = trace w ++ dir_events w ++ [SysOpenRead source]) ∧
  (∀ c, source = path → fs w !! path = Some (File c) →
   ∃ e w',
     SvPresetFromFile.execute self w = (Raised e, w') ∧
     is_Exception e = true ∧
     fs w' = fs (ensure_dir w) ∧
     fs w' !! path = Some (File c) ∧
     trace w' = trace w ++ dir_events w).
Proof.
  intros Hn Hf path source. split.
  - intros Hmissing. eexists. split.
    { rewrite from_file_run by done. fold path source.
      rewrite run_bind, shutil_copy_missing by done. reflexivity. }
    simpl. split; [done|]. split; [apply ensure_dir_files|].
    rewrite ensure_dir_trace. by rewrite <-!app_assoc.
  - intros c Heq Hfile.
    pose proof (ensure_dir_lookup_Some _ _ _ Hfile) as Hfile'.
    eexists _, _. split.
    { rewrite from_file_run by done. fold path source. rewrite Heq.
      rewrite run_bind, (shutil_copy_same _ _ c) by done. reflexivity. }
    simpl. split; [done|]. split; [done|]. split; [done|].
    apply ensure_dir_trace.
Qed.

Lemma from_file_failure_keeps_preset_witness :
  (∃ w',
     SvPresetFromFile.execute (H := demo_host)
       (SvPresetFromFile.mk "foo" "/home/u/missing.json") demo_world
       = (Raised (FileNotFoundError "/home/u/missing.json"), w') ∧
     fs w' = fs demo_world) ∧
  (∃ e w',
     SvPresetFromFile.execute (H := demo_host)
       (SvPresetFromFile.mk "foo" "/home/u/presets/foo.json") demo_world
       = (Raised e, w') ∧
     fs w' !! "/home/u/presets/foo.json" = Some (File (bytes_of "{foo}"))).
Proof.
  split.
  - destruct (from_file_failure_keeps_preset (H := demo_host)
                (SvPresetFromFile.mk "foo" "/home/u/missing.json") demo_world)
      as [Hmissing _].
    + discriminate.
    + discriminate.
    + destruct Hmissing as (w' & Hrun & Hfs & _).
      * reflexivity.
      * exists w'. split; [exact Hrun|]. rewrite Hfs. reflexivity.
  - destruct (from_file_failure_keeps_preset (H := demo_host)
                (SvPresetFromFile.mk "foo" "/home/u/presets/foo.json") demo_world)
      as [_ Hsame].
    + discriminate.
    + discriminate.
    + destruct (Hsame (bytes_of "{foo}") eq_refl eq_refl)
        as (e & w' & Hrun & _ & _ & Hfile & _).
      exists e, w'. split; [exact Hrun|exact Hfile].
Defined.



(** ** Operations and the listing *)



Section listing_more_facts.
Context `{Collaborators}.

(** The listing of a world whose presets directory is in place. *)
Lemma listing_present (w : World) :
  PyStr.endswith user_resource PyStr.slash = false →
  fs w !! user_resource = Some Dir →
  ∃ l w',
    get_preset_paths w = (Returned l, w') ∧
    fs w' = fs w ∧
    ∀ p, p ∈ l ↔ json_entry (fs w) p.
Proof.
  intros Hroot Hdir. eexists _, _. split; [by apply get_preset_paths_run|].
  simpl. rewrite (ensure_dir_fs_present w _ Hdir). split; [done|].
  intros p. unfold sorted. rewrite merge_sort_Permutation. apply elem_of_globbed.
Qed.

Lemma json_entry_agree (m m' : gmap string entry) (p : string) :
  m' !! user_resource = m !! user_resource →
  m' !! p = m !! p →
  json_entry m' p ↔ json_entry m p.
Proof.
  intros Hr Hp. unfold json_entry. rewrite Hr.
  split; intros (Hd & name & -> & Hrest); (split; [done|]); exists name;
    (split; [done|]); [rewrite <-Hp|rewrite Hp]; done.
Qed.



Lemma delete_success (name : string) (w : World) (c : list byte) :
  name ≠ "" →
  fs w !! user_resource = Some Dir →
  fs w !! os_path.join user_resource (name +:+ ".json") = Some (File c) →
  ∃ w',
    SvDeletePreset.execute (SvDeletePreset.mk name) w = (Returned FINISHED, w') ∧
    fs w' = delete (os_path.join user_resource (name +:+ ".json")) (fs w).
Proof.
  intros Hn Hdir Hfile.
  pose proof (ensure_dir_fs_present w _ Hdir) as Hfs.
  eexists. split.
  { rewrite delete_run by done. simpl.
    rewrite run_bind. unfold os_remove. rewrite Hfs, Hfile. reflexivity. }
  simpl. by rewrite Hfs.
Qed.

End listing_more_facts.





(** X20.  A deleted preset leaves the listing and nothing else does:
    with the presets directory in place, the listing after the delete of
    a preset on disk holds exactly the paths of the listing before it,
    except the path of the deleted preset. *)
Theorem delete_then_unlisted `{Collaborators}
    (name : string) (w : World) (c : list byte) :
  name ≠ "" →
  PyStr.endswith user_resource PyStr.slash = false →
  let path := os_path.join user_resource (name +:+ ".json") in
  fs w !! user_resource = Some Dir →
  fs w !! path = Some (File c) →
  ∃ l0 w0 w1 l1 w2,
    get_preset_paths w = (Returned l0, w0) ∧
    SvDeletePreset.execute (SvDeletePreset.mk name) w = (Returned FINISHED, w1) ∧
    get_preset_paths w1 = (Returned l1, w2) ∧
    ∀ p, p ∈ l1 ↔ p ∈ l0 ∧ p ≠ path.
Proof.
  intros Hn Hroot path Hdir Hfile.
  assert (path ≠ user_resource) as Hpr by congruence.
  destruct (listing_present w Hroot Hdir) as (l0 & w0 & Hlist0 & _ & Hmem0).
  destruct (delete_success name w c) as (w1 & Hrun & Hfs1); try done.
  fold path in Hfs1.
  assert (fs w1 !! user_resource = Some Dir) as Hdir1.
  { by rewrite Hfs1, lookup_delete_ne. }
  destruct (listing_present w1 Hroot Hdir1) as (l1 & w2 & Hlist1 & _ & Hmem1).
  exists l0, w0, w1, l1, w2. split; [done|]. split; [done|]. split; [done|].
  intros p. rewrite Hmem1, Hmem0. destruct (decide (p = path)) as [->|Hp].
  - split; [|by intros [_ ?]].
    intros (_ & name' & _ & _ & _ & _ & [e He]).
    by rewrite Hfs1, lookup_delete_eq in He.
  - rewrite (json_entry_agree (fs w) (fs w1) p).
    + split; [intros ?; by split|by intros [? _]].
    + by rewrite Hfs1, lookup_delete_ne.
    + by rewrite Hfs1, lookup_delete_ne.
Qed.

Lemma delete_then_unlisted_witness :
  ∃ w1 l1 w2,
    SvDeletePreset.execute (H := demo_host) (SvDeletePreset.mk "a") demo_world
      = (Returned FINISHED, w1) ∧
    get_preset_paths (H := demo_host) w1 = (Returned l1, w2) ∧
    "/home/u/presets/a.json" ∉ l1.
Proof.
  destruct (delete_then_unlisted (H := demo_host) "a" demo_world (bytes_of "{a}"))
    as (l0 & w0 & w1 & l1 & w2 & _ & Hrun & Hlist & Hmem).
  - discriminate.
  - reflexivity.
  - reflexivity.
  - reflexivity.
  - exists w1, l1, w2. split; [exact Hrun|]. split; [exact Hlist|].
    intros Hin. apply Hmem in Hin as [_ Hne]. by apply Hne.
Defined.



(** ** The resolver and the preset entity, continued *)

Lemma length_app (a b : string) :
  String.length (a +:+ b) = (String.length a + String.length b)%nat.
Proof. induction a as [|x a IH]; [done|]. rewrite append_cons. simpl. by rewrite IH. Qed.

Lemma append_inj_r (a b t : string) : a +:+ t = b +:+ t → a = b.
Proof.
  revert b. induction a as [|x a IH]; intros [|y b] Heq; [done| | |].
  - apply (f_equal String.length) in Heq.
    rewrite !length_app in Heq. simpl in Heq. lia.
  - apply (f_equal String.length) in Heq.
    rewrite !length_app in Heq. simpl in Heq. lia.
  - rewrite !append_cons in Heq. injection Heq as -> Heq. f_equal. by apply IH.
Qed.

(** X22.  Names that do not begin with a separator never share a preset
    file: if [get_preset_path] returns the same path for two such names,
    in whatever worlds, the names are equal.  (A name that begins with a
    separator can collide with one that does not, as ["/home/u/presets/a"]
    and ["a"] do.) *)
Theorem get_preset_path_injective `{Collaborators} (n1 n2 : string) (w1 w2 : World) :
  PyStr.startswith n1 PyStr.slash = false →
  PyStr.startswith n2 PyStr.slash = false →
  (get_preset_path n1 w1).1 = (get_preset_path n2 w2).1 →
  n1 = n2.
Proof.
  intros H1 H2. rewrite !get_preset_path_run. simpl. intros [= Heq].
  rewrite (join_empty_app _ (n1 +:+ ".json")),
          (join_empty_app _ (n2 +:+ ".json")) in Heq
    by by rewrite startswith_append.
  apply (inj _) in Heq. by apply append_inj_r in Heq.
Qed.

Lemma get_preset_path_injective_witness :
  (get_preset_path (H := demo_host) "a" demo_world).1 ≠
  (get_preset_path (H := demo_host) "a b" empty_world).1.
Proof.
  intros Heq.
  apply (get_preset_path_injective (H := demo_host) "a" "a b" demo_world empty_world)
    in Heq; [discriminate Heq|reflexivity|reflexivity].
Defined.

(** X23.  The resolver settles the presets directory once: after one
    call of [get_presets_directory] the directory is there, and a second
    call only probes it, returning the same path and leaving the
    filesystem as the first call left it. *)
Theorem get_presets_directory_settles `{Collaborators} (w : World) :
  ∃ w1 w2,
    get_presets_directory w = (Returned user_resource, w1) ∧
    is_Some (fs w1 !! user_resource) ∧
    entries_kept (fs w) (fs w1) ∧
    get_presets_directory w1 = (Returned user_resource, w2) ∧
    fs w2 = fs w1 ∧
    trace w2 = trace w1 ++ [SysExists user_resource].
Proof.
  exists (ensure_dir w), (ensure_dir (ensure_dir w)).
  split; [apply get_presets_directory_run|].
  split; [apply ensure_dir_exists|].
  split; [apply ensure_dir_kept|].
  split; [apply get_presets_directory_run|].
  split; [apply ensure_dir_idem|].
  by rewrite ensure_dir_trace, dir_events_ensured.
Qed.

Section preset_more_facts.
Context `{Collaborators}.

Lemma assign_all_total (l : list SvPreset.assignment) (self : SvPreset.t) (w : World) :
  ∃ self' w', SvPreset.assign_all self l w = (Returned self', w').
Proof.
  revert self w. induction l as [|a l IH]; intros self w; [by eexists _, _|].
  destruct (assign_run self a w) as (self1 & w1 & Hrun1 & _).
  destruct (IH self1 w1) as (self2 & w2 & Hrun2).
  exists self2, w2. simpl. by rewrite run_bind, Hrun1.
Qed.


End preset_more_facts.

(** X24.  The last assignment wins, whatever came before: for a preset
    constructed in any admissible way (even from a name and a path that
    disagree) and any run of assignments, after a final assignment of
    the name the accessors return that name and the path the resolver
    gives it, and after a final assignment of the path they return the
    stem of that path and that path. *)
Theorem last_assignment_wins `{Collaborators}
    (name path : option string) (l : list SvPreset.assignment)
    (a : SvPreset.assignment) (w : World) :
  (name = None → path ≠ None) →
  ∃ self self' w1 w2,
    SvPreset.init name path = Returned self ∧
    SvPreset.assign_all self (l ++ [a]) w = (Returned self', w1) ∧
    SvPreset.observe self' w1 =
      (Returned
         match a with
         | SvPreset.SetName n0 => (n0, os_path.join user_resource (n0 +:+ ".json"))
         | SvPreset.SetPath p0 => (SvPreset.stem p0, p0)
         end, w2).
Proof.
  intros Hgiven.
  assert (SvPreset.init name path = Returned (SvPreset.mk name path)) as Hinit.
  { destruct name, path; first [done | by destruct (Hgiven eq_refl)]. }
  destruct (assign_all_total l (SvPreset.mk name path) w) as (self0 & w0 & Hrun0).
  destruct a as [n0|p0].
  - eexists _, _, _, _. split; [done|]. split.
    { rewrite assign_all_app, Hrun0. simpl.
      rewrite run_bind, set_name_run. reflexivity. }
    reflexivity.
  - eexists _, _, _, _. split; [done|]. split.
    { rewrite assign_all_app, Hrun0. reflexivity. }
    reflexivity.
Qed.

Lemma last_assignment_wins_witness :
  ∃ self' w1 w2,
    SvPreset.assign_all (H := demo_host)
      (SvPreset.mk (Some "a") (Some "/tmp/b.json"))
      [SvPreset.SetName "x"; SvPreset.SetPath "/tmp/c.json"] demo_world
      = (Returned self', w1) ∧
    SvPreset.observe (H := demo_host) self' w1 = (Returned ("c", "/tmp/c.json"), w2).
Proof.
  destruct (last_assignment_wins (H := demo_host)
              (Some "a") (Some "/tmp/b.json") [SvPreset.SetName "x"]
              (SvPreset.SetPath "/tmp/c.json") demo_world)
    as (self & self' & w1 & w2 & Hinit & Hrun & Hobs).
  - discriminate.
  - injection Hinit as <-. exists self', w1, w2. split; [exact Hrun|exact Hobs].
Defined.



(** X26.  A name and the path the resolver gives it determine each
    other: for a name without separator that is not made of dots alone,
    the path read from a preset constructed from the name is the
    resolver's path, and a preset constructed from that path reads the
    name again. *)
Theorem name_path_name_round_trip `{Collaborators} (n : string) (w : World) :
  PyStr.contains PyStr.slash n = false →
  PyStr.all_eq PyStr.dot n = false →
  ∃ p self1 w1 self2,
    SvPreset.get_path (SvPreset.mk (Some n) None) w = (Returned (p, self1), w1) ∧
    p = os_path.join user_resource (n +:+ ".json") ∧
    SvPreset.get_name (SvPreset.mk None (Some p)) w1 = (Returned (n, self2), w1).
Proof.
  intros Hs Hd. eexists _, _, _, _. split.
  { unfold SvPreset.get_path. simpl. rewrite run_bind, get_preset_path_run. reflexivity. }
  split; [done|].
  unfold SvPreset.get_name. simpl. by rewrite stem_of_preset_path.
Qed.

Lemma name_path_name_round_trip_witness :
  ∃ self2 w1,
    SvPreset.get_name (SvPreset.mk None (Some "/home/u/presets/my.preset.json")) w1
      = (Returned ("my.preset", self2), w1).
Proof.
  destruct (name_path_name_round_trip (H := demo_host) "my.preset" demo_world)
    as (p & self1 & w1 & self2 & _ & -> & Hname).
  - reflexivity.
  - reflexivity.
  - exists self2, w1. exact Hname.
Defined.

(** ** The panel *)

Section panel_facts.
Context `{Collaborators}.

Lemma get_presets_total (w : World) :
  ∃ l d,
    get_preset_paths w = (Returned l, with_event (SysListdir d) (ensure_dir w)) ∧
    get_presets w =
      (Returned ((λ p, SvPreset.mk None (Some p)) <$> l),
       with_event (SysListdir d) (ensure_dir w)).
Proof.
  unfold get_presets, get_preset_paths.
  rewrite !run_bind, get_presets_directory_run, !run_bind. unfold glob.
  destruct (os_path.split _) as [d b]. rewrite run_bind. unfold listdir.
  eexists _, d. split; [reflexivity|]. simpl. by rewrite get_presets_loop_run.
Qed.

Lemma draw_presets_loop_run (l : list string) (id_tree : string) (w : World) :
  draw_presets_loop ((λ p, SvPreset.mk None (Some p)) <$> l) id_tree w =
  (Returned (preset_button id_tree <$> l), w).
Proof.
  induction l as [|p l IH]; [done|].
  rewrite !fmap_cons.
  change (draw_presets_loop (SvPreset.mk None (Some p) ::
                             ((λ p, SvPreset.mk None (Some p)) <$> l)) id_tree w)
    with (match draw_presets_loop ((λ p, SvPreset.mk None (Some p)) <$> l) id_tree w with
          | (Returned ws', w') => (Returned ([preset_button id_tree p] ++ ws'), w')
          | (Raised e, w') => (Raised e, w')
          end).
  by rewrite IH.
Qed.

Lemma manage_rows_run (l : list string) (w : World) :
  manage_rows ((λ p, SvPreset.mk None (Some p)) <$> l) w =
  (Returned (preset_row <$> l), w).
Proof.
  induction l as [|p l IH]; [done|].
  rewrite !fmap_cons.
  change (manage_rows (SvPreset.mk None (Some p) ::
                       ((λ p, SvPreset.mk None (Some p)) <$> l)) w)
    with (match manage_rows ((λ p, SvPreset.mk None (Some p)) <$> l) w with
          | (Returned rows, w') => (Returned (preset_row p :: rows), w')
          | (Raised e, w') => (Raised e, w')
          end).
  by rewrite IH.
Qed.

Lemma panel_draw_run (ntree : NodeTree) (manage_mode : bool) (w : World)
    (l : list string) (w' : World) :
  get_presets w = (Returned ((λ p, SvPreset.mk None (Some p)) <$> l), w') →
  panel_draw ntree manage_mode w = (Returned (panel_widgets ntree manage_mode l), w').
Proof.
  intros Hrun. unfold panel_draw, panel_widgets.
  rewrite run_bind, Hrun. rewrite length_fmap.
  destruct manage_mode.
  - rewrite run_bind, manage_rows_run. by destruct l.
  - rewrite run_bind. unfold draw_presets_ops. cbv iota.
    rewrite run_bind, run_ret. cbv iota beta.
    rewrite run_bind, run_ret. cbv iota beta.
    rewrite draw_presets_loop_run. by destruct l.
Qed.

Lemma existsb_filter_nonempty {A : Type} (f : A → bool) (l : list A) :
  existsb f l = true ↔ List.filter f l ≠ [].
Proof.
  induction l as [|x l IH]; simpl; [done|].
  destruct (f x); simpl; [done|]. apply IH.
Qed.

Lemma save_button_in_panel (ntree : NodeTree) (manage_mode : bool) (l : list string) :
  save_button ntree ∈ panel_widgets ntree manage_mode l ↔
  existsb (λ node, select node) (nodes ntree) = true.
Proof.
  unfold panel_widgets. rewrite !elem_of_app. split.
  - destruct (existsb _ _); [done|].
    intros [Hin|[Hin|Hin]].
    + by apply elem_of_nil in Hin.
    + destruct l; [by apply elem_of_nil in Hin|].
      apply elem_of_cons in Hin as [?|Hin]; [done|].
      apply elem_of_cons in Hin as [?|Hin]; [done|]. by apply elem_of_nil in Hin.
    + destruct manage_mode.
      * apply elem_of_app in Hin as [Hin|Hin].
        -- apply elem_of_cons in Hin as [?|Hin]; [done|].
           apply elem_of_cons in Hin as [?|Hin]; [done|]. by apply elem_of_nil in Hin.
        -- by apply list_elem_of_fmap in Hin as (p & ? & _).
      * apply elem_of_app in Hin as [Hin|Hin].
        -- apply elem_of_cons in Hin as [?|Hin]; [done|]. by apply elem_of_nil in Hin.
        -- by apply list_elem_of_fmap in Hin as (p & ? & _).
  - intros ->. left. apply elem_of_cons. by left.
Qed.

End panel_facts.



(** X28.  The panel offers the save button exactly when save-selected
    would not refuse the selection: for a tree registered under its name
    and any preset name given, the button is among the widgets drawn if
    and only if the operator, run on the same world, does not come back
    with the refusal of an empty selection. *)
Theorem save_button_matches_selection_check `{Collaborators}
    (ntree : NodeTree) (manage_mode : bool) (name : string) (w : World) :
  tree_name ntree ≠ "" →
  name ≠ "" →
  node_groups w !! tree_name ntree = Some ntree →
  ∃ ws w',
    panel_draw ntree manage_mode w = (Returned ws, w') ∧
    (save_button ntree ∈ ws ↔
     ¬ rejected "There are no selected nodes to export" w
         (SvSaveSelected.execute (SvSaveSelected.mk name (tree_name ntree)) w)).
Proof.
  intros Ht Hn Hng.
  destruct (get_presets_total w) as (l & d & _ & Hpresets).
  eexists _, _. split; [by apply panel_draw_run|].
  rewrite save_button_in_panel, existsb_filter_nonempty.
  destruct (List.filter (λ n, select n) (nodes ntree)) as [|x sel] eqn:Hsel.
  - split; [done|]. intros Hnot. destruct Hnot.
    unfold rejected, SvSaveSelected.execute. simpl.
    rewrite (truthy_nonempty _ Ht), (truthy_nonempty _ Hn). simpl.
    rewrite run_bind. unfold node_groups_getitem. rewrite Hng, Hsel. simpl.
    by rewrite <-app_assoc.
  - split; [|done]. intros _ [Hr _].
    rewrite (save_selected_run _ w ntree) in Hr; [|done|done|done|by rewrite Hsel].
    rewrite run_bind, get_preset_path_run, run_bind in Hr.
    destruct (fs (ensure_dir w) !! os_path.join user_resource (name +:+ ".json"))
      as [[|c]|] eqn:Hp.
    + unfold write_json in Hr. rewrite run_bind in Hr. unfold open_wb in Hr.
      simpl in Hr. rewrite Hp in Hr. discriminate Hr.
    + rewrite write_json_run in Hr by (simpl; by rewrite Hp). discriminate Hr.
    + rewrite write_json_run in Hr by (simpl; by rewrite Hp). discriminate Hr.
Qed.

Lemma save_button_matches_selection_check_witness :
  ∃ ws w',
    panel_draw (H := demo_host) idle_tree true demo_world = (Returned ws, w') ∧
    (save_button idle_tree ∉ ws).
Proof.
  destruct (save_button_matches_selection_check (H := demo_host)
              idle_tree true "bar" demo_world)
    as (ws & w' & Hdraw & Hiff).
  - discriminate.
  - discriminate.
  - reflexivity.
  - exists ws, w'. split; [exact Hdraw|].
    intros Hin. apply Hiff in Hin. apply Hin. vm_compute. tauto.
Defined.

(** X29.  [draw_presets_ops] without a tree identifier and without a
    context raises its exception, but checks this only after it has
    fetched the presets: when no presets are passed either, the presets
    directory has by then been made sure of (created when missing) and
    listed; when presets are passed, nothing has happened. *)
Theorem draw_presets_ops_needs_tree `{Collaborators} (w : World) :
  let err := PyException
    "Either id_tree or context must be provided for draw_presets_ops()" in
  (∀ presets, draw_presets_ops None (Some presets) None w = (Raised err, w)) ∧
  (∃ w' d,
     draw_presets_ops None None None w = (Raised err, w') ∧
     is_Some (fs w' !! user_resource) ∧
     entries_kept (fs w) (fs w') ∧
     trace w' = trace w ++ dir_events w ++ [SysListdir d]).
Proof.
  intros err. split; [done|].
  destruct (get_presets_total w) as (l & d & _ & Hpresets).
  eexists _, d. split.
  { unfold draw_presets_ops. rewrite run_bind, Hpresets. reflexivity. }
  simpl. split; [apply ensure_dir_exists|]. split; [apply ensure_dir_kept|].
  by rewrite ensure_dir_trace, <-app_assoc.
Qed.

(** X30.  Export and the import dialog meet on the clipboard: once the
    upload of an export returned an address, the address is on the
    clipboard whatever the registry of uploaded snippets answers, and
    the import dialog opened next starts with that address as its
    snippet identifier, the preset name it was given untouched. *)
Theorem export_then_import_dialog `{Collaborators}
    (self : SvPresetToGist.t) (dialog : SvPresetFromGist.t) (w : World)
    (raw : list byte) (body url : string) :
  SvPresetToGist.preset_name self ≠ "" →
  let path := os_path.join user_resource (SvPresetToGist.preset_name self +:+ ".json") in
  fs w !! path = Some (File raw) →
  decode_utf8 raw = Some body →
  gist_upload (SvPresetToGist.preset_name self +:+ ".json")
    (SvPresetToGist.preset_name self) body = Returned url →
  ∃ w' dialog',
    SvPresetToGist.execute self w = (Returned FINISHED, w') ∧
    clipboard w' = url ∧
    SvPresetFromGist_invoke dialog w' = (Returned (dialog', RUNNING_MODAL), w') ∧
    SvPresetFromGist.gist_id dialog' = url ∧
    SvPresetFromGist.preset_name dialog' = SvPresetFromGist.preset_name dialog.
Proof.
  intros Hn path Hfile Hdec Hup.
  eexists _, _. split.
  { rewrite (to_gist_run self w raw body) by done. apply finally_return_run. }
  assert (clipboard
            (try_except
               (SvPresetToGist.upload_block
                  (SvPresetToGist.preset_name self +:+ ".json")
                  (SvPresetToGist.preset_name self) body)
               SvPresetToGist.upload_handler (upload_ready self w)).2 = url) as Hclip.
  { unfold try_except, SvPresetToGist.upload_block, main_upload_function,
      write_or_append_datafiles, SvPresetToGist.upload_handler,
      info, report, exception, emit, lift_outcome, mbind, M_bind.
    simpl. rewrite Hup. simpl.
    destruct (registry_append _ _) as [[]|err]; simpl; [done|].
    by destruct (is_Exception err). }
  split; [done|]. unfold SvPresetFromGist_invoke. rewrite Hclip. done.
Qed.

Lemma export_then_import_dialog_witness :
  ∃ w' dialog',
    SvPresetToGist.execute (H := demo_host) (SvPresetToGist.mk "foo") demo_world
      = (Returned FINISHED, w') ∧
    SvPresetFromGist_invoke (SvPresetFromGist.mk "" "copy") w'
      = (Returned (dialog', RUNNING_MODAL), w') ∧
    SvPresetFromGist.gist_id dialog' = "https://gist.example/foo.json".
Proof.
  destruct (export_then_import_dialog (H := demo_host)
              (SvPresetToGist.mk "foo") (SvPresetFromGist.mk "" "copy") demo_world
              (bytes_of "{foo}") "{foo}" "https://gist.example/foo.json")
    as (w' & dialog' & Hrun & _ & Hinv & Hid & _).
  - discriminate.
  - reflexivity.
  - reflexivity.
  - reflexivity.
  - exists w', dialog'. split; [exact Hrun|]. split; [exact Hinv|exact Hid].
Defined.
